(** * generic_trader: market-data facade, adapters and streaming loop

    A shallow embedding of the Python package [gti] (files [atom.py],
    [td_ameritrade.py], [robinhood.py], [yahoo.py]) and the properties of
    its dispatch, normalisation, window computation and streaming code.

    Conventions of the embedding:
    - a Python call that may raise returns [Res A]; code that talks to a
      vendor library runs in the monad [M], which threads a [World] holding
      the wall clock, the recorded vendor requests and standard output;
    - the vendor libraries (tda-api, robin_stocks, yfinance) and the
      conversions of the Python runtime that need external data (time-zone
      database, [float()] on text, [strptime]) are the fields of [Env];
    - a function that can fall off its end returns [option A], [None] being
      Python's [None];
    - JSON objects are association lists, in the order the vendor sent them;
    - a [pandas.DataFrame] is the list of its rows, each with its index
      label. *)

From Stdlib Require Import ZArith List String Ascii Bool Lia Floats.
From Stdlib Require Import Sorted.
Import ListNotations.
Local Open Scope string_scope.
Local Open Scope list_scope.
Local Open Scope Z_scope.

(** ** Exceptions and results *)

Inductive exn : Type :=
| NotImplementedError (msg : string)
| ValueError (msg : string)
| KeyError (key : string)
| IndexError
| TypeError
| OverflowError
| HTTPError (status_code : Z)
| StopIteration
| VendorError (what : string).

Inductive Res (A : Type) : Type :=
| Ok (a : A)
| Raise (e : exn).
Arguments Ok {A} a.
Arguments Raise {A} e.

Definition of_option {A} (o : option A) (e : exn) : Res A :=
  match o with Some a => Ok a | None => Raise e end.

(** ** Calendar: Python's [datetime] on the proleptic Gregorian ordinal

    A [datetime] holds the wall-clock fields and, when it is aware, the
    offset from UTC that its [tzinfo] fixes. A reading of
    [datetime.now(pytz.timezone("US/Pacific"))] carries the offset in force
    at that instant; arithmetic with [timedelta] and [replace] work on the
    wall-clock fields and hand the [tzinfo] on as it is, without looking the
    zone up again. *)

Record datetime : Type := mkDT {
  toordinal : Z;          (* day number, 0001-01-01 is day 1 *)
  hour : Z;
  minute : Z;
  second : Z;
  microsecond : Z;
  utcoffset : option Z    (* minutes east of UTC; [None]: naive *)
}.

Definition MINORDINAL : Z := 1.
Definition MAXORDINAL : Z := 3652059.          (* 9999-12-31 *)
Definition MAX_DELTA_DAYS : Z := 999999999.

Definition is_leap (year : Z) : bool :=
  (year mod 4 =? 0) && (negb (year mod 100 =? 0) || (year mod 400 =? 0)).

Definition days_before_year (year : Z) : Z :=
  let y := year - 1 in y * 365 + y / 4 - y / 100 + y / 400.

Definition DAYS_BEFORE_MONTH : list Z :=
  [0; 31; 59; 90; 120; 151; 181; 212; 243; 273; 304; 334].

Definition days_before_month (year month : Z) : Z :=
  nth (Z.to_nat (month - 1)) DAYS_BEFORE_MONTH 0
  + (if (2 <? month) && is_leap year then 1 else 0).

Definition ymd2ord (year month day : Z) : Z :=
  days_before_year year + days_before_month year month + day.

(** [datetime(year, month, day, hour, minute)] *)
Definition mk_datetime (year month day hh mm : Z) : datetime :=
  mkDT (ymd2ord year month day) hh mm 0 0 None.

Definition valid_datetime (d : datetime) : Prop :=
  MINORDINAL <= toordinal d <= MAXORDINAL
  /\ 0 <= hour d < 24 /\ 0 <= minute d < 60
  /\ 0 <= second d < 60 /\ 0 <= microsecond d < 1000000.

(** [d.weekday()]: Monday is 0, Sunday is 6. *)
Definition weekday (d : datetime) : Z := (toordinal d + 6) mod 7.

(** [datetime.timedelta(days)], whole days only. *)
Definition timedelta (days : Z) : Res Z :=
  if (Z.abs days <=? MAX_DELTA_DAYS) then Ok days else Raise OverflowError.

(** [d + delta] for a whole-day [delta]: the time of day is kept, the date
    has to stay within [datetime.min .. datetime.max]. *)
Definition dt_add (d : datetime) (delta : Z) : Res datetime :=
  let o := toordinal d + delta in
  if (0 <? o) && (o <=? MAXORDINAL)
  then Ok (mkDT o (hour d) (minute d) (second d) (microsecond d) (utcoffset d))
  else Raise OverflowError.

Definition dt_sub (d : datetime) (delta : Z) : Res datetime :=
  dt_add d (- delta).

(** [d.replace(hour=h, minute=m, second=s, microsecond=us)] *)
Definition replace_time (d : datetime) (h m s us : Z) : datetime :=
  mkDT (toordinal d) h m s us (utcoffset d).

(** Microseconds since the start of day 0: the order of instants that share
    a zone offset. *)
Definition dt_micros (d : datetime) : Z :=
  (((toordinal d * 24 + hour d) * 60 + minute d) * 60 + second d) * 1000000
  + microsecond d.

Definition dt_le (a b : datetime) : Prop := dt_micros a <= dt_micros b.

(** ** Strings *)

(** [s.upper()] on ASCII text. *)
Definition upper_ascii (c : ascii) : ascii :=
  let n := nat_of_ascii c in
  if (97 <=? n)%nat && (n <=? 122)%nat then ascii_of_nat (n - 32) else c.

Fixpoint upper (s : string) : string :=
  match s with
  | EmptyString => EmptyString
  | String c s' => String (upper_ascii c) (upper s')
  end.

(** [s.split(":")[0]] *)
Fixpoint before_colon (s : string) : string :=
  match s with
  | EmptyString => EmptyString
  | String c s' => if Ascii.eqb c ":" then EmptyString else String c (before_colon s')
  end.

(** ** Vendor payloads *)

(** What an HTTP response object of the vendor client answers. *)
Record Response (A : Type) : Type := mkResponse {
  status_code : Z;
  json : Res A;                    (* [r.json()] *)
  raise_for_status : Res unit      (* [r.raise_for_status()] *)
}.
Arguments mkResponse {A}.
Arguments status_code {A}.
Arguments json {A}.
Arguments raise_for_status {A}.

Record Candle : Type := mkCandle {
  c_datetime : Z;                  (* milliseconds since the epoch, UTC *)
  c_open : float;
  c_high : float;
  c_low : float;
  c_close : float;
  c_volume : Z
}.

(** The price-history document; [None] when it has no ["candles"] key. *)
Record PriceHistoryJson : Type := mkPH { candles : option (list Candle) }.

Record QuoteItem : Type := mkQuoteItem {
  lastPrice : option float;
  openPrice : option float
}.

(** A raw contract of the option-chain document. *)
Record RawOption : Type := mkRawOption {
  putCall : string;
  strikePrice : float;
  bid : float;
  ask : float;
  last : float;
  inTheMoney : bool
}.

(** expiration key -> strike key -> contracts at that strike *)
Definition StrikeMap : Type := list (string * list RawOption).
Definition ExpDateMap : Type := list (string * StrikeMap).

Record OptionChainJson : Type := mkChain {
  callExpDateMap : option ExpDateMap;
  putExpDateMap : option ExpDateMap
}.

Record YfInfo : Type := mkYfInfo {
  regularMarketPreviousClose : option float;
  regularMarketOpen : option float
}.

(** A row of the frame [yfinance] answers from [history]. *)
Record YfBar : Type := mkYfBar {
  yb_Date : datetime;
  yb_Open : float;
  yb_High : float;
  yb_Low : float;
  yb_Close : float;
  yb_Volume : Z
}.

(** The many-ticker frame [yfinance] answers from [download]. *)
Definition Panel : Type := list (string * list (datetime * float)).

(** ** Requests that reach a vendor library *)

Inductive PeriodType := PeriodType_DAY | PeriodType_YEAR.
Inductive FrequencyType := FrequencyType_MINUTE | FrequencyType_DAILY.
Inductive Frequency :=
| EVERY_MINUTE | EVERY_FIVE_MINUTES | EVERY_TEN_MINUTES
| EVERY_FIFTEEN_MINUTES | EVERY_THIRTY_MINUTES.
Inductive ContractType := ContractType_ALL.

Inductive Request : Type :=
| TdaGetPriceHistory (symbol : string) (period_type : PeriodType)
    (frequency_type : FrequencyType) (frequency : option Frequency)
    (start_datetime end_datetime : datetime)
    (need_extended_hours_data : option bool)
| TdaGetQuote (symbol : string)
| TdaGetOptionChain (symbol : string) (strike : option float)
    (contract_type : option ContractType) (from_date to_date : option Z)
| RsGetLatestPrice (symbol : string)
| RsGetFundamentals (symbol : string) (info : option string)
| RsGetQuotes (symbol : string)
| RoGetChains (symbol : string)
| YfTickerInfo (symbol : string)
| YfTickerOptions (symbol : string)
| YfTickerHistory (symbol : string) (start end_ : string)
| YfDownload (tickers : string) (period : string).

(** The ticker a request carries to the vendor. *)
Definition request_ticker (r : Request) : string :=
  match r with
  | TdaGetPriceHistory s _ _ _ _ _ _ => s
  | TdaGetQuote s => s
  | TdaGetOptionChain s _ _ _ _ => s
  | RsGetLatestPrice s => s
  | RsGetFundamentals s _ => s
  | RsGetQuotes s => s
  | RoGetChains s => s
  | YfTickerInfo s => s
  | YfTickerOptions s => s
  | YfTickerHistory s _ _ => s
  | YfDownload s _ => s
  end.

Inductive Output : Type :=
| ErrorRetrievingData (ticker : string) (status : Z).

(** ** The world and the vendors *)

Record World : Type := mkWorld {
  clock : nat -> datetime;     (* successive readings of [datetime.now(pacific)] *)
  ticks : nat;                 (* readings taken so far *)
  calls : list Request;        (* requests sent so far, oldest first *)
  stdout : list Output
}.

Record Env : Type := mkEnv {
  py_float : string -> option float;              (* [float(s)], [None]: ValueError *)
  strptime_ymd : string -> option datetime;       (* [strptime(s, "%Y-%m-%d")] *)
  strftime_ymd : datetime -> string;
  ms_to_pacific : Z -> datetime;                  (* epoch ms as naive Pacific time *)
  py_str_list : list string -> string;            (* [str(list)] *)
  tda_get_price_history : Request -> Res (Response PriceHistoryJson);
  tda_get_quote : Request -> Res (Response (list (string * QuoteItem)));
  tda_get_option_chain : Request -> Res (Response OptionChainJson);
  rs_get_latest_price : Request -> Res (list (option string));
  rs_get_fundamentals : Request -> Res (list (option string));
  rs_get_quotes : Request -> Res (list (list (string * string)));
  ro_get_chains : Request -> Res (option (list string));
  yf_info : Request -> Res YfInfo;
  yf_options : Request -> Res (list string);
  yf_history : Request -> Res (list YfBar);
  yf_download : Request -> Res Panel;
  close_panel : Panel -> Panel                    (* lines 44-47 of yahoo.py *)
}.

Definition M (A : Type) : Type := World -> Res A * World.

Definition ret {A} (a : A) : M A := fun w => (Ok a, w).

Definition raise {A} (e : exn) : M A := fun w => (Raise e, w).

Definition bind {A B} (c : M A) (k : A -> M B) : M B :=
  fun w =>
    match c w with
    | (Ok a, w') => k a w'
    | (Raise e, w') => (Raise e, w')
    end.

Definition lift {A} (r : Res A) : M A := fun w => (r, w).

Declare Scope py_scope.
Delimit Scope py_scope with py.
Notation "x <- c ;; k" := (bind c (fun x => k))
  (at level 61, c at next level, right associativity) : py_scope.
Notation "c ;;; k" := (bind c (fun _ => k))
  (at level 61, right associativity) : py_scope.
Local Open Scope py_scope.

(** [datetime.datetime.now(pacific)] *)
Definition now_pacific : M datetime :=
  fun w => (Ok (clock w (ticks w)),
            mkWorld (clock w) (S (ticks w)) (calls w) (stdout w)).

(** Send [r] to a vendor: the request is recorded, the vendor answers. *)
Definition send {A} (vendor : Request -> Res A) (r : Request) : M A :=
  fun w => (vendor r,
            mkWorld (clock w) (ticks w) (calls w ++ [r]) (stdout w)).

Definition print (o : Output) : M unit :=
  fun w => (Ok tt, mkWorld (clock w) (ticks w) (calls w) (stdout w ++ [o])).

(** ** Frames returned to the caller *)

Inductive DateIndex : Type :=
| DateOnly (ordinal : Z)             (* a [datetime.date] *)
| DateTimeNaive (dt : datetime)      (* a naive timestamp *)
| DateText (s : string).             (* a formatted date *)

Record Bar : Type := mkBar {
  Date : DateIndex;
  Open : float;
  High : float;
  Low : float;
  Close : float;
  Volume : Z
}.

Record OptionRow : Type := mkOptionRow {
  r_strike : float;
  r_bid : float;
  r_ask : float;
  r_lastPrice : float
}.

(** What [get_options_data] hands back: a frame of rows, each under the
    position its contract had in [options_list], or a text. *)
Inductive OptionsResult : Type :=
| Frame (rows : list (nat * OptionRow))
| Message (text : string).

(** [df.tail(n)] *)
Definition df_tail {A} (n : Z) (df : list A) : list A :=
  if 0 <=? n then skipn (List.length df - Z.to_nat n)%nat df
  else skipn (Z.to_nat (- n)) df.

(** [pd.DataFrame(rows)]: every row gets its position as index label. *)
Definition DataFrame {A} (rows : list A) : list (nat * A) :=
  combine (seq 0 (List.length rows)) rows.

(** A frame built from no rows has no columns: selecting one raises. *)
Definition column {A} (rows : list A) (key : string) : Res unit :=
  match rows with [] => Raise (KeyError key) | _ :: _ => Ok tt end.

Definition EPOCH_ORDINAL : Z := 719163.        (* 1970-01-01 *)
Definition MS_PER_DAY : Z := 86400000.

(** * td_ameritrade.py *)

Module TDAClient.
Section WithVendors.
Variable env : Env.

(** Lines 140-151 of [get_minute_bars]: the window of the request. *)
Definition compute_window (lookback_days : Z) (from_market_open : bool)
  : M (datetime * datetime) :=
  end_date <- now_pacific ;;
  if from_market_open then
    now <- now_pacific ;;
    now <- (if 5 <=? weekday now then
              let days_ahead := 7 - weekday now in
              delta <- lift (timedelta days_ahead) ;;
              lift (dt_add now delta)
            else ret now) ;;
    let stock_market_open := replace_time now 6 30 0 0 in
    let start_date := stock_market_open in
    ret (start_date, end_date)
  else
    delta <- lift (timedelta lookback_days) ;;
    start_date <- lift (dt_sub end_date delta) ;;
    ret (start_date, end_date).

Definition frequency_of (frequency_window : string) : Res Frequency :=
  if String.eqb frequency_window "1m" then Ok EVERY_MINUTE
  else if String.eqb frequency_window "5m" then Ok EVERY_FIVE_MINUTES
  else if String.eqb frequency_window "10m" then Ok EVERY_TEN_MINUTES
  else if String.eqb frequency_window "15m" then Ok EVERY_FIFTEEN_MINUTES
  else if String.eqb frequency_window "30m" then Ok EVERY_THIRTY_MINUTES
  else Raise (ValueError "Please select from 1m, 5m, 10m, 15m, 30m").

(** The candle with its timestamp localised to naive Pacific time and its
    columns renamed. *)
Definition minute_bar (c : Candle) : Bar :=
  mkBar (DateTimeNaive (ms_to_pacific env (c_datetime c)))
        (c_open c) (c_high c) (c_low c) (c_close c) (c_volume c).

Definition daily_bar (c : Candle) : Bar :=
  mkBar (DateOnly (EPOCH_ORDINAL + c_datetime c / MS_PER_DAY))
        (c_open c) (c_high c) (c_low c) (c_close c) (c_volume c).

Definition get_historical_daily_bar (ticker start_date end_date : string)
  : M (list Bar) :=
  start_date <- lift (of_option (strptime_ymd env start_date)
                                (ValueError "time data does not match format")) ;;
  end_date <- lift (of_option (strptime_ymd env end_date)
                              (ValueError "time data does not match format")) ;;
  response <- send (tda_get_price_history env)
                (TdaGetPriceHistory (upper ticker) PeriodType_YEAR
                   FrequencyType_DAILY None start_date end_date None) ;;
  doc <- lift (json response) ;;
  r <- lift (of_option (candles doc) (KeyError "candles")) ;;
  lift (column r "datetime") ;;;
  ret (map daily_bar r).

Definition get_stock_quote (ticker : string) : M QuoteItem :=
  response <- send (tda_get_quote env) (TdaGetQuote (upper ticker)) ;;
  quote <- lift (json response) ;;
  match quote with
  | [] => raise StopIteration
  | (_, first_item) :: _ => ret first_item
  end.

Definition get_latest_price (ticker : string) : M float :=
  q <- get_stock_quote ticker ;;
  lift (of_option (lastPrice q) (KeyError "lastPrice")).

Definition get_open_price (ticker : string) : M float :=
  q <- get_stock_quote ticker ;;
  lift (of_option (openPrice q) (KeyError "openPrice")).

Definition get_minute_bars (ticker frequency_window : string)
    (num_bars : option Z) (lookback_days : Z)
    (keep_non_trading_hours from_market_open : bool)
  : M (option (list Bar)) :=
  window <- compute_window lookback_days from_market_open ;;
  let '(start_date, end_date) := window in
  frequency <- lift (frequency_of frequency_window) ;;
  history_response <- send (tda_get_price_history env)
                        (TdaGetPriceHistory (upper ticker) PeriodType_DAY
                           FrequencyType_MINUTE (Some frequency)
                           start_date end_date (Some keep_non_trading_hours)) ;;
  if status_code history_response =? 200 then
    doc <- lift (json history_response) ;;
    history_data <- lift (of_option (candles doc) (KeyError "candles")) ;;
    let df := history_data in
    lift (column df "datetime") ;;;
    let latest_bars :=
      match num_bars with
      | Some n => Some (map minute_bar (df_tail n df))
      | None => None
      end in
    let latest_bars := map minute_bar df in
    ret (Some latest_bars)
  else
    print (ErrorRetrievingData ticker (status_code history_response)) ;;;
    ret None.

Definition get_option_dates (ticker : string) : M (list string) :=
  response <- send (tda_get_option_chain env)
                (TdaGetOptionChain (upper ticker) None (Some ContractType_ALL)
                   None None) ;;
  lift (raise_for_status response) ;;;
  option_data <- lift (json response) ;;
  let options_dates := [] in
  call_map <- lift (of_option (callExpDateMap option_data)
                              (KeyError "callExpDateMap")) ;;
  let options_dates :=
    options_dates ++ map (fun kv => before_colon (fst kv)) call_map in
  put_map <- lift (of_option (putExpDateMap option_data)
                             (KeyError "putExpDateMap")) ;;
  let options_dates :=
    options_dates ++ map (fun kv => before_colon (fst kv)) put_map in
  ret options_dates.

(** The innermost loop of lines 277-282: the contracts found under one
    strike key. [float(strike)] is evaluated once per contract. *)
Fixpoint scan_contracts (strike : string) (contracts : list RawOption)
    (options_list : list RawOption) : Res (list RawOption) :=
  match contracts with
  | [] => Ok options_list
  | option :: rest =>
      match py_float env strike with
      | None => Raise (ValueError "could not convert string to float")
      | Some k =>
          scan_contracts strike rest
            (if PrimFloat.eqb k (strikePrice option)
             then options_list ++ [option]
             else options_list)
      end
  end.

Fixpoint scan_strikes (strikes : StrikeMap) (options_list : list RawOption)
  : Res (list RawOption) :=
  match strikes with
  | [] => Ok options_list
  | (strike, contracts) :: rest =>
      match scan_contracts strike contracts options_list with
      | Ok options_list => scan_strikes rest options_list
      | Raise e => Raise e
      end
  end.

Fixpoint scan_dates (dates : ExpDateMap) (options_list : list RawOption)
  : Res (list RawOption) :=
  match dates with
  | [] => Ok options_list
  | (_, strikes) :: rest =>
      match scan_strikes strikes options_list with
      | Ok options_list => scan_dates rest options_list
      | Raise e => Raise e
      end
  end.

(** Lines 275-282: calls first, then puts. *)
Definition flatten_chain (option_data : OptionChainJson)
  : Res (list RawOption) :=
  match callExpDateMap option_data with
  | None => Raise (KeyError "callExpDateMap")
  | Some call_map =>
      match scan_dates call_map [] with
      | Raise e => Raise e
      | Ok options_list =>
          match putExpDateMap option_data with
          | None => Raise (KeyError "putExpDateMap")
          | Some put_map => scan_dates put_map options_list
          end
      end
  end.

Definition option_row (o : RawOption) : OptionRow :=
  mkOptionRow (strikePrice o) (bid o) (ask o) (last o).

(** [result.loc[result[key] == value]] on a frame of contracts. *)
Definition loc_putCall (value : string) (result : list (nat * RawOption))
  : list (nat * RawOption) :=
  filter (fun r => String.eqb (putCall (snd r)) value) result.

Definition loc_inTheMoney (value : bool) (result : list (nat * RawOption))
  : list (nat * RawOption) :=
  filter (fun r => Bool.eqb (inTheMoney (snd r)) value) result.

Definition is_str (o : option string) (s : string) : bool :=
  match o with Some x => String.eqb x s | None => false end.

(** Lines 285-292: the call/put filter. [Ok None]: the value is neither
    [None], ["call"] nor ["put"], and the function returns its text. *)
Definition by_call_or_put (options_list : list RawOption)
    (call_or_put : option string) (result : list (nat * RawOption))
  : Res (option (list (nat * RawOption))) :=
  match call_or_put with
  | None => Ok (Some result)
  | Some s =>
      if String.eqb s "call" then
        match column options_list "putCall" with
        | Ok _ => Ok (Some (loc_putCall "CALL" result))
        | Raise e => Raise e
        end
      else if String.eqb s "put" then
        match column options_list "putCall" with
        | Ok _ => Ok (Some (loc_putCall "PUT" result))
        | Raise e => Raise e
        end
      else Ok None
  end.

(** Line 294: the moneyness filter. *)
Definition by_in_or_out (options_list : list RawOption)
    (in_or_out : option string) (result : list (nat * RawOption))
  : Res (list (nat * RawOption)) :=
  if is_str in_or_out "in" then
    match column options_list "inTheMoney" with
    | Ok _ => Ok (loc_inTheMoney true result)
    | Raise e => Raise e
    end
  else if is_str in_or_out "out" then
    match column options_list "inTheMoney" with
    | Ok _ => Ok (loc_inTheMoney false result)
    | Raise e => Raise e
    end
  else Ok result.

(** Lines 295-296: the four columns that are returned. *)
Definition select_columns (options_list : list RawOption)
    (result : list (nat * RawOption)) : Res OptionsResult :=
  match column options_list "['strike', 'bid', 'ask', 'lastPrice']" with
  | Raise e => Raise e
  | Ok _ => Ok (Frame (map (fun r => (fst r, option_row (snd r))) result))
  end.

(** Lines 284-296: the filters and the projection. *)
Definition filter_options (options_list : list RawOption)
    (call_or_put in_or_out : option string) : Res OptionsResult :=
  let result := DataFrame options_list in
  match by_call_or_put options_list call_or_put result with
  | Raise e => Raise e
  | Ok None => Ok (Message "please input call or put")
  | Ok (Some result) =>
      match by_in_or_out options_list in_or_out result with
      | Raise e => Raise e
      | Ok result => select_columns options_list result
      end
  end.

(** Lines 265-282: the request and the flattening of its answer. *)
Definition fetch_options_list (symbol strike_date : string)
    (strike_price : option float) : M (list RawOption) :=
  expiry_date <- lift (of_option (strptime_ymd env strike_date)
                                 (ValueError "time data does not match format")) ;;
  let expiry_date := toordinal expiry_date in
  response <- send (tda_get_option_chain env)
                (TdaGetOptionChain (upper symbol) strike_price
                   (Some ContractType_ALL) (Some expiry_date) (Some expiry_date)) ;;
  lift (raise_for_status response) ;;;
  option_data <- lift (json response) ;;
  lift (flatten_chain option_data).

Definition get_options_data (symbol strike_date : string)
    (strike_price : option float) (call_or_put in_or_out : option string)
  : M OptionsResult :=
  options_list <- fetch_options_list symbol strike_date strike_price ;;
  lift (filter_options options_list call_or_put in_or_out).

End WithVendors.
End TDAClient.

(** ** The streaming client of [TdaStream] *)

Definition Msg : Type := string.

Inductive Event : Type :=
| Deliver (msg : Msg)            (* the transport hands over one message *)
| TransportFails (e : exn).      (* the read raises *)

Inductive QOSLevel := QOS_EXPRESS.

(** The vendor's [StreamClient] as a scripted double: what its handshake
    calls answer, the inbound events still to come, and what it has been
    told so far. A handler is the effect it has on standard output. *)
Record StreamClient : Type := mkStream {
  login_answer : Res unit;
  qos_answer : Res unit;
  subs_answer : Res unit;
  inbound : list Event;
  logged_in : bool;
  qos : option QOSLevel;
  nasdaq_book_subscriptions : list (list string);
  nasdaq_book_handlers : list (Msg -> list Msg -> list Msg);
  reads : nat;                   (* calls of [handle_message] so far *)
  printed : list Msg             (* standard output *)
}.

Module TdaStream.

Definition login (s : StreamClient) : Res unit * StreamClient :=
  (login_answer s,
   mkStream (login_answer s) (qos_answer s) (subs_answer s) (inbound s)
     (match login_answer s with Ok _ => true | Raise _ => logged_in s end)
     (qos s) (nasdaq_book_subscriptions s) (nasdaq_book_handlers s)
     (reads s) (printed s)).

Definition quality_of_service (level : QOSLevel) (s : StreamClient)
  : Res unit * StreamClient :=
  (qos_answer s,
   mkStream (login_answer s) (qos_answer s) (subs_answer s) (inbound s)
     (logged_in s)
     (match qos_answer s with Ok _ => Some level | Raise _ => qos s end)
     (nasdaq_book_subscriptions s) (nasdaq_book_handlers s)
     (reads s) (printed s)).

Definition nasdaq_book_subs (symbols : list string) (s : StreamClient)
  : Res unit * StreamClient :=
  (subs_answer s,
   mkStream (login_answer s) (qos_answer s) (subs_answer s) (inbound s)
     (logged_in s) (qos s)
     (match subs_answer s with
      | Ok _ => nasdaq_book_subscriptions s ++ [symbols]
      | Raise _ => nasdaq_book_subscriptions s
      end)
     (nasdaq_book_handlers s) (reads s) (printed s)).

Definition add_nasdaq_book_handler (h : Msg -> list Msg -> list Msg)
    (s : StreamClient) : StreamClient :=
  mkStream (login_answer s) (qos_answer s) (subs_answer s) (inbound s)
    (logged_in s) (qos s) (nasdaq_book_subscriptions s)
    (nasdaq_book_handlers s ++ [h]) (reads s) (printed s).

(** [await handle_message()]: one inbound event is taken and, when it is a
    message, every registered handler is called on it in turn. [None]: no
    event is left, the await never completes. *)
Definition handle_message (s : StreamClient)
  : option (Res unit * StreamClient) :=
  match inbound s with
  | [] => None
  | Deliver msg :: rest =>
      Some (Ok tt,
            mkStream (login_answer s) (qos_answer s) (subs_answer s) rest
              (logged_in s) (qos s) (nasdaq_book_subscriptions s)
              (nasdaq_book_handlers s) (S (reads s))
              (fold_left (fun out h => h msg out) (nasdaq_book_handlers s)
                         (printed s)))
  | TransportFails e :: rest =>
      Some (Raise e,
            mkStream (login_answer s) (qos_answer s) (subs_answer s) rest
              (logged_in s) (qos s) (nasdaq_book_subscriptions s)
              (nasdaq_book_handlers s) (S (reads s)) (printed s))
  end.

(** [print(json.dumps(msg, indent=4))] *)
Definition order_book_handler (msg : Msg) (out : list Msg) : list Msg :=
  out ++ [msg].

(** [while True: await handle_message()], run for at most [fuel] rounds.
    The loop has no normal exit: [Some (e, s)] is the exception that left
    it, [None] that it is still running or waiting. *)
Fixpoint message_loop (fuel : nat) (s : StreamClient)
  : option (exn * StreamClient) :=
  match fuel with
  | O => None
  | S fuel' =>
      match handle_message s with
      | None => None
      | Some (Raise e, s') => Some (e, s')
      | Some (Ok _, s') => message_loop fuel' s'
      end
  end.

Definition read_stream (fuel : nat) (s : StreamClient)
  : option (exn * StreamClient) :=
  match login s with
  | (Raise e, s) => Some (e, s)
  | (Ok _, s) =>
      match quality_of_service QOS_EXPRESS s with
      | (Raise e, s) => Some (e, s)
      | (Ok _, s) =>
          match nasdaq_book_subs ["SPY"] s with
          | (Raise e, s) => Some (e, s)
          | (Ok _, s) =>
              let s := add_nasdaq_book_handler order_book_handler s in
              message_loop fuel s
          end
      end
  end.

(** [run_until_complete(self.read_stream())] *)
Definition start_data_stream (fuel : nat) (s : StreamClient)
  : option (exn * StreamClient) :=
  read_stream fuel s.

End TdaStream.

(** * robinhood.py *)

Module RobinhoodStocks.
Section WithVendors.
Variable env : Env.

(** [float(xs[0])] on what robin_stocks answers: a list of texts or
    [None]s. *)
Definition float_of_first (xs : list (option string)) : Res float :=
  match xs with
  | [] => Raise IndexError
  | None :: _ => Raise TypeError
  | Some x :: _ =>
      of_option (py_float env x) (ValueError "could not convert string to float")
  end.

Definition get_latest_price (ticker : string) : M float :=
  r <- send (rs_get_latest_price env) (RsGetLatestPrice ticker) ;;
  lift (float_of_first r).

Definition get_open_price (ticker : string) : M float :=
  r <- send (rs_get_fundamentals env) (RsGetFundamentals ticker (Some "open")) ;;
  lift (float_of_first r).

Definition get_quotes (ticker : string) : M (list (string * string)) :=
  r <- send (rs_get_quotes env) (RsGetQuotes ticker) ;;
  match r with
  | [] => raise IndexError
  | q :: _ => ret q
  end.

Definition get_option_dates (ticker : string) : M (list string) :=
  r <- send (ro_get_chains env) (RoGetChains ticker) ;;
  lift (of_option r (KeyError "expiration_dates")).

End WithVendors.
End RobinhoodStocks.

(** * yahoo.py *)

Module YFinanceApi.
Section WithVendors.
Variable env : Env.

Definition yf_bar (b : YfBar) : Bar :=
  mkBar (DateText (strftime_ymd env (yb_Date b)))
        (yb_Open b) (yb_High b) (yb_Low b) (yb_Close b) (yb_Volume b).

Definition get_historical_daily_bar (ticker start_date end_date : string)
  : M (list Bar) :=
  df <- send (yf_history env) (YfTickerHistory (upper ticker) start_date end_date) ;;
  ret (map yf_bar df).

(** [s.replace(c, "")] for a one-character [c]. *)
Fixpoint remove_char (c : ascii) (s : string) : string :=
  match s with
  | EmptyString => EmptyString
  | String x s' =>
      if Ascii.eqb x c then remove_char c s' else String x (remove_char c s')
  end.

Definition yf_data_multi (tickers : list string) (horizon : string) : M Panel :=
  let names :=
    remove_char "," (remove_char "'" (remove_char "]" (remove_char "["
      (py_str_list env tickers)))) in
  data <- send (yf_download env) (YfDownload names horizon) ;;
  ret (close_panel env data).

Definition get_latest_price (ticker : string) : M float :=
  info <- send (yf_info env) (YfTickerInfo (upper ticker)) ;;
  lift (of_option (regularMarketPreviousClose info)
                  (KeyError "regularMarketPreviousClose")).

Definition get_open_price (ticker : string) : M float :=
  info <- send (yf_info env) (YfTickerInfo (upper ticker)) ;;
  lift (of_option (regularMarketOpen info) (KeyError "regularMarketOpen")).

Definition get_option_dates (ticker : string) : M (list string) :=
  send (yf_options env) (YfTickerOptions (upper ticker)).

End WithVendors.
End YFinanceApi.

(** * atom.py: the facade *)

Module atom.
Section WithVendors.
Variable env : Env.

Definition some {A} (c : M A) : M (option A) := a <- c ;; ret (Some a).

Definition get_multi_historical_daily_bars (tickers : list string)
    (horizon source : string) : M Panel :=
  if String.eqb source "yf" then
    YFinanceApi.yf_data_multi env tickers horizon
  else
    raise (NotImplementedError "This data source is not supported.").

Definition get_latest_price (ticker source : string) : M (option float) :=
  if String.eqb source "td" then
    some (TDAClient.get_latest_price env ticker)
  else if String.eqb source "rob" then
    some (RobinhoodStocks.get_latest_price env ticker)
  else if String.eqb source "yf" then
    some (YFinanceApi.get_latest_price env ticker)
  else ret None.

Definition get_open_price (ticker source : string) : M (option float) :=
  if String.eqb source "td" then
    some (TDAClient.get_open_price env ticker)
  else if String.eqb source "rob" then
    some (RobinhoodStocks.get_open_price env ticker)
  else if String.eqb source "yf" then
    some (YFinanceApi.get_open_price env ticker)
  else ret None.

Definition get_historical_daily_bars (ticker start_date end_date source : string)
  : M (option (list Bar)) :=
  if String.eqb source "td" then
    some (TDAClient.get_historical_daily_bar env ticker start_date end_date)
  else
    (if String.eqb source "rob" then ret tt (* pass *) else ret tt) ;;;
    if String.eqb source "yf" then
      some (YFinanceApi.get_historical_daily_bar env ticker start_date end_date)
    else ret None.

Definition get_minute_bars (ticker frequency_window : string)
    (num_bars : option Z) (lookback_days : Z)
    (keep_non_trading_hours from_market_open : bool) (source : string)
  : M (option (list Bar)) :=
  if String.eqb source "td" then
    TDAClient.get_minute_bars env ticker frequency_window num_bars
      lookback_days keep_non_trading_hours from_market_open
  else
    raise (NotImplementedError "This data source is not supported.").

Definition get_option_dates (ticker source : string) : M (option (list string)) :=
  if String.eqb source "td" then
    some (TDAClient.get_option_dates env ticker)
  else if String.eqb source "rob" then
    some (RobinhoodStocks.get_option_dates env ticker)
  else if String.eqb source "yf" then
    some (YFinanceApi.get_option_dates env ticker)
  else ret None.

Definition get_option_chain (ticker expiry_date : string)
    (call_or_put in_or_out : option string) (source : string)
  : M (option OptionsResult) :=
  if String.eqb source "td" then
    some (TDAClient.get_options_data env ticker expiry_date None
            call_or_put in_or_out)
  else if String.eqb source "rob" || String.eqb source "yfinance" then
    raise (NotImplementedError "This data source is not supported.")
  else ret None.

End WithVendors.
End atom.

(** ** Test doubles: a frozen clock, scripted vendors *)

Definition frozen_clock (now : datetime) : nat -> datetime := fun _ => now.

Definition world_at (now : datetime) : World :=
  mkWorld (frozen_clock now) 0 [] [].

Definition friday_10am : datetime := mk_datetime 2024 3 15 10 0.
Definition saturday_10am : datetime := mk_datetime 2024 3 16 10 0.

Definition spy_candles : list Candle :=
  [ mkCandle 1710511200000 510.5 511.0 510.25 510.75 1200;
    mkCandle 1710511260000 510.75 511.5 510.5 511.25 900;
    mkCandle 1710511320000 511.25 511.75 511.0 511.5 700 ]%float.

Definition call_450 : RawOption := mkRawOption "CALL" 450 61.5 61.75 61.5 true.
Definition call_520 : RawOption := mkRawOption "CALL" 520 1.25 1.5 1.25 false.
Definition call_stray : RawOption := mkRawOption "CALL" 455 57 57.5 57 true.
Definition put_450 : RawOption := mkRawOption "PUT" 450 0.5 0.75 0.5 false.
Definition put_520 : RawOption := mkRawOption "PUT" 520 9.5 9.75 9.5 true.

Definition spy_chain : OptionChainJson :=
  mkChain
    (Some [("2023-05-05:3", [("450.0", [call_450; call_stray]);
                             ("520.0", [call_520])])])
    (Some [("2023-05-05:3", [("450.0", [put_450]); ("520.0", [put_520])])]).

(** A vendor whose every answer is fixed beforehand. [float()] knows the
    number texts that occur in these doubles. *)
Definition scripted (history_status : Z) (chain_status : Res unit) : Env :=
  mkEnv
    (fun s => if String.eqb s "450.0" then Some 450%float
              else if String.eqb s "520.0" then Some 520%float
              else if String.eqb s "512.25" then Some 512.25%float
              else None)
    (fun s => if String.eqb s "2023-05-05" then Some (mk_datetime 2023 5 5 0 0)
              else None)
    (fun _ => "2023-05-05")
    (fun ms => mkDT (EPOCH_ORDINAL + (ms - 25200000) / MS_PER_DAY)
                    ((ms - 25200000) mod MS_PER_DAY / 3600000)
                    ((ms - 25200000) mod 3600000 / 60000)
                    ((ms - 25200000) mod 60000 / 1000) 0 None)
    (fun _ => "")
    (fun _ => Ok (mkResponse history_status (Ok (mkPH (Some spy_candles)))
                    (if history_status <? 400 then Ok tt
                     else Raise (HTTPError history_status))))
    (fun _ => Ok (mkResponse 200
                    (Ok [("SPY", mkQuoteItem (Some 512.25%float) (Some 510.5%float))])
                    (Ok tt)))
    (fun _ => Ok (mkResponse (match chain_status with Ok _ => 200 | Raise _ => 503 end)
                    (Ok spy_chain) chain_status))
    (fun _ => Ok [Some "512.25"])
    (fun _ => Ok [Some "512.25"])
    (fun _ => Ok [[("symbol", "SPY")]])
    (fun _ => Ok (Some ["2023-05-05"]))
    (fun _ => Ok (mkYfInfo (Some 512.25%float) (Some 510.5%float)))
    (fun _ => Ok ["2023-05-05"])
    (fun _ => Ok [])
    (fun _ => Ok [])
    (fun p => p).

Definition healthy : Env := scripted 200 (Ok tt).

(** The request for the chain of SPY expiring 2023-05-05, and the world
    once it is sent. *)
Definition chain_request : Request :=
  TdaGetOptionChain "SPY" None (Some ContractType_ALL)
    (Some (ymd2ord 2023 5 5)) (Some (ymd2ord 2023 5 5)).

Definition after_chain_request : World :=
  mkWorld (frozen_clock friday_10am) 0 [chain_request] [].

(** A stream double that hands over [msgs] and then fails with [e]. *)
Definition stream_double (msgs : list Msg) (e : exn) : StreamClient :=
  mkStream (Ok tt) (Ok tt) (Ok tt)
    (map Deliver msgs ++ [TransportFails e])
    false None [] [] 0 [].

(** ** Notions the properties are stated with *)

(** An operation sends only requests that satisfy [P]. *)
Definition sends_only {A} (P : Request -> Prop) (c : M A) : Prop :=
  forall w, exists sent,
    calls (snd (c w)) = calls w ++ sent /\ Forall P sent.

(** The request carries [ticker] in upper case. *)
Definition in_upper_case (ticker : string) (r : Request) : Prop :=
  request_ticker r = upper ticker.

(** An operation sends the one request [r] and no other. *)
Definition sends_exactly {A} (r : Request) (c : M A) : Prop :=
  forall w, calls (snd (c w)) = calls w ++ [r].

(** The contracts of a map with the strike key each one is found under, in
    the order the loops of lines 277-280 visit them. *)
Definition strike_pairs (strikes : StrikeMap) : list (string * RawOption) :=
  flat_map (fun sc => map (pair (fst sc)) (snd sc)) strikes.

Definition contracts_under (m : ExpDateMap) : list (string * RawOption) :=
  flat_map (fun d => strike_pairs (snd d)) m.

(** Line 281: [float(strike) == option["strikePrice"]]. *)
Definition strike_matches (env : Env) (p : string * RawOption) : bool :=
  match py_float env (fst p) with
  | Some k => PrimFloat.eqb k (strikePrice (snd p))
  | None => false
  end.

(** The contracts among [pairs] that line 281 lets through. *)
Definition kept_contracts (env : Env) (pairs : list (string * RawOption))
  : list RawOption :=
  map snd (filter (strike_matches env) pairs).

(** * Further code of the package *)

(** ** The vendor calls and library steps this code needs *)

Record Report : Type := mkReport { report_date : option string }.

Record Eps : Type := mkEps {
  eps_actual : option string;
  eps_estimate : option string
}.

(** One entry of what [rs.get_earnings] answers; [earning_report] is
    [None] where the vendor sends [null] for ["report"]. *)
Record Earning : Type := mkEarning {
  earning_year : Z;
  earning_quarter : Z;
  earning_report : option Report;
  earning_eps : Eps
}.

(** The dict [r] that lines 102-107 of robinhood.py build. *)
Record EarningRow : Type := mkEarningRow {
  er_year : Z;
  er_quarter : Z;
  er_date : option string;
  er_actual_eps : option string;
  er_estimate_eps : option string
}.

Record EarningsLine : Type := mkEarningsLine {
  el_year : Z;
  el_quarter : Z;
  el_date : Z;
  el_actual_eps : float;
  el_estimate_eps : float;
  el_annual_eps : float
}.

(** A contract row of the frames [yfinance] answers from [option_chain]. *)
Record YfContract : Type := mkYfContract {
  contractSymbol : string;
  yc_strike : float;
  yc_bid : float;
  yc_ask : float;
  yc_lastPrice : float
}.

Record Vendors : Type := mkVendors {
  rs_get_earnings : string -> Res (list Earning);
  rm_get_top_100 : Res (list string);              (* [info='symbol'] *)
  pandas_earnings : list EarningRow -> Res (list EarningsLine);
                                                   (* lines 110-114 of robinhood.py *)
  yf_option_chain : string -> string -> Res (list YfContract * list YfContract)
}.

(** How a call ends when it may also raise the plain [Exception]. *)
Inductive Outcome (A : Type) : Type :=
| Returned (a : A)
| Raised (e : exn)
| RaisedException (msg : string).
Arguments Returned {A} a.
Arguments Raised {A} e.
Arguments RaisedException {A} msg.

Definition outcome_of {A} (r : Res A) : Outcome A :=
  match r with Ok a => Returned a | Raise e => Raised e end.

(** [s.lower()] on ASCII text. *)
Definition lower_ascii (c : ascii) : ascii :=
  let n := nat_of_ascii c in
  if (65 <=? n)%nat && (n <=? 90)%nat then ascii_of_nat (n + 32) else c.

Fixpoint lower (s : string) : string :=
  match s with
  | EmptyString => EmptyString
  | String c s' => String (lower_ascii c) (lower s')
  end.

(** ** td_ameritrade.py, continued *)

Module TDAClient_rest.

(** Python's order on pairs of integers. *)
Definition pair_le (a b : Z * Z) : bool :=
  (fst a <? fst b) || ((fst a =? fst b) && (snd a <=? snd b)).

Definition pair_lt (a b : Z * Z) : bool :=
  (fst a <? fst b) || ((fst a =? fst b) && (snd a <? snd b)).

(** [is_trading_hour(dt)], [dt] an aware timestamp given by its
    milliseconds since the epoch. *)
Definition is_trading_hour (env : Env) (dt : Z) : bool :=
  let dt_pacific := ms_to_pacific env dt in
  let hour := hour dt_pacific in
  let minute := minute dt_pacific in
  let weekday := weekday dt_pacific in
  (pair_le (6, 30) (hour, minute) && pair_lt (hour, minute) (13, 0))
  && (weekday <? 5).

(** The token files on disk and the browser, as [tda.auth] and selenium
    use them: loading needs the file, the login flow starts from a browser
    and writes the token to the path it is given. A file is named by the
    path that [realpath] resolves every spelling of it to. *)
Record AuthWorld : Type := mkAuthWorld {
  token_files : list string;       (* resolved paths that hold a token *)
  browsers_started : nat;
  login_flow_answer : Res unit;    (* how the interactive login ends *)
  auth_stdout : list string
}.

Inductive Client : Type := ClientFromFile (path : string) | ClientFromLogin.

Fixpoint path_in (p : string) (ps : list string) : bool :=
  match ps with
  | [] => false
  | q :: rest => String.eqb p q || path_in p rest
  end.

Section WithFileSystem.
Variable realpath : string -> string.      (* the file a path leads to *)

(** [auth.client_from_token_file(path, api_key)]; [None] stands for
    [FileNotFoundError]. *)
Definition client_from_token_file (path : string) (a : AuthWorld)
  : option Client :=
  if path_in (realpath path) (token_files a) then Some (ClientFromFile path)
  else None.

(** [webdriver.Chrome(ChromeDriverManager().install())] *)
Definition start_chrome (a : AuthWorld) : AuthWorld :=
  mkAuthWorld (token_files a) (S (browsers_started a)) (login_flow_answer a)
    (auth_stdout a).

(** [auth.client_from_login_flow(driver, api_key, redirect_uri, path)] *)
Definition client_from_login_flow (path : string) (a : AuthWorld)
  : Res Client * AuthWorld :=
  match login_flow_answer a with
  | Ok _ =>
      (Ok ClientFromLogin,
       mkAuthWorld (token_files a ++ [realpath path]) (browsers_started a)
         (login_flow_answer a) (auth_stdout a))
  | Raise e => (Raise e, a)
  end.

(** [authentication(self)]: [token_path] is [self.token_path], the file
    ["token"] beside the module; [tda_token_path] comes from
    [broker_config]. *)
Definition authentication (token_path tda_token_path : string) (a : AuthWorld)
  : Res Client * AuthWorld :=
  match client_from_token_file token_path a with
  | Some c => (Ok c, a)
  | None =>
      let a :=
        mkAuthWorld (token_files a) (browsers_started a) (login_flow_answer a)
          (auth_stdout a ++
           ["No Available Token File. Starting Chrome authentication process to generate token file"]) in
      let a := start_chrome a in
      client_from_login_flow tda_token_path a
  end.

End WithFileSystem.

End TDAClient_rest.

(** ** robinhood.py, continued *)

Module RobinhoodStocks_rest.
Section WithVendors.
Variable vendors : Vendors.

Definition get_robinhood_top100_symbols : Res (list string) :=
  match rm_get_top_100 vendors with
  | Ok r => Ok (map lower r)
  | Raise e => Raise e
  end.

(** Lines 102-107: the dict built from one entry; [i['report']['date']]
    raises when the report is [None]. *)
Definition row_of (i : Earning) : Res EarningRow :=
  match earning_report i with
  | None => Raise TypeError
  | Some report =>
      Ok (mkEarningRow (earning_year i) (earning_quarter i) (report_date report)
            (eps_actual (earning_eps i)) (eps_estimate (earning_eps i)))
  end.

(** Lines 101-107: the loop rebinds [r] at every entry. *)
Fixpoint last_row (earnings_json : list Earning) (r : EarningRow)
  : Res EarningRow :=
  match earnings_json with
  | [] => Ok r
  | i :: rest =>
      match row_of i with
      | Ok r => last_row rest r
      | Raise e => Raise e
      end
  end.

Definition get_earnings (ticker : string) : Outcome (list EarningsLine) :=
  match rs_get_earnings vendors ticker with
  | Raise e => Raised e
  | Ok earnings_json =>
      match earnings_json with
      | [] => RaisedException "No Data Available"
      | i :: rest =>
          let final := [] in
          match row_of i with
          | Raise e => Raised e
          | Ok r =>
              match last_row rest r with
              | Raise e => Raised e
              | Ok r =>
                  (* [final.append(r)] stands after the loop *)
                  let final := final ++ [r] in
                  outcome_of (pandas_earnings vendors final)
              end
          end
      end
  end.

End WithVendors.
End RobinhoodStocks_rest.

(** ** yahoo.py, continued *)

Module YFinanceApi_rest.
Section WithVendors.
Variable vendors : Vendors.

Definition contract_row (c : YfContract) : OptionRow :=
  mkOptionRow (yc_strike c) (yc_bid c) (yc_ask c) (yc_lastPrice c).

(** [get_options_data(ticker, date, call_or_put)]; each of the vendor's two
    frames numbers its rows from 0 and [pd.concat] keeps those labels. *)
Definition get_options_data (ticker date : string)
    (call_or_put : option string) : Res (list (nat * OptionRow)) :=
  match yf_option_chain vendors (upper ticker) date with
  | Raise e => Raise e
  | Ok (calls_, puts) =>
      let options_df :=
        if TDAClient.is_str call_or_put "call" then DataFrame calls_
        else if TDAClient.is_str call_or_put "put" then DataFrame puts
        else DataFrame calls_ ++ DataFrame puts in
      Ok (map (fun r => (fst r, contract_row (snd r))) options_df)
  end.

End WithVendors.

(** [str(tickers)] for tickers that print without escapes. *)
Fixpoint quoted_items (tickers : list string) : string :=
  match tickers with
  | [] => ""
  | [t] => "'" ++ t ++ "'"
  | t :: rest => "'" ++ t ++ "', " ++ quoted_items rest
  end%string.

Definition list_text (tickers : list string) : string :=
  ("[" ++ quoted_items tickers ++ "]")%string.

Fixpoint join_spaces (tickers : list string) : string :=
  match tickers with
  | [] => ""
  | [t] => t
  | t :: rest => t ++ " " ++ join_spaces rest
  end%string.

(** The four [replace] calls of [yf_data_multi]. *)
Definition strip_list_marks (s : string) : string :=
  YFinanceApi.remove_char ","
    (YFinanceApi.remove_char "'"
       (YFinanceApi.remove_char "]" (YFinanceApi.remove_char "[" s))).

(** No character of [s] is one that [yf_data_multi] strips. *)
Fixpoint plain (s : string) : bool :=
  match s with
  | EmptyString => true
  | String c s' =>
      negb (Ascii.eqb c "[") && negb (Ascii.eqb c "]")
      && negb (Ascii.eqb c "'") && negb (Ascii.eqb c ",") && plain s'
  end.

End YFinanceApi_rest.

(** ** Notions the further properties are stated with *)

Fixpoint colon_free (s : string) : bool :=
  match s with
  | EmptyString => true
  | String c s' => negb (Ascii.eqb c ":") && colon_free s'
  end.

(** An entry of an expiration map as the vendor keys it: the date, a colon
    and the days to expiration. *)
Definition expiry_entry (e : string * string * StrikeMap) : string * StrikeMap :=
  ((fst (fst e) ++ ":" ++ snd (fst e))%string, snd e).

(** What [float(strike)] raises on a text that is not a number. *)
Definition unreadable : exn := ValueError "could not convert string to float".

(** The minute of the day. *)
Definition minute_of_day (d : datetime) : Z := 60 * hour d + minute d.

(** The instant an aware [datetime] stands for, in microseconds: its wall
    clock less its offset. *)
Definition utc_micros (d : datetime) : option Z :=
  match utcoffset d with
  | Some offset => Some (dt_micros d - offset * 60000000)
  | None => None
  end.

(** The first Sunday on or after day [o]. *)
Definition first_sunday_from (o : Z) : Z := o + (6 - (o + 6) mod 7).

(** The offset of US/Pacific at the wall-clock time [d] of [year], by the
    rule in force since 2007: daylight time from 02:00 on the second Sunday
    of March to 02:00 on the first Sunday of November. *)
Definition pacific_offset (year : Z) (d : datetime) : Z :=
  let dst_start := (first_sunday_from (ymd2ord year 3 1) + 7) * 1440 + 120 in
  let dst_end := first_sunday_from (ymd2ord year 11 1) * 1440 + 120 in
  let t := toordinal d * 1440 + minute_of_day d in
  if (dst_start <=? t) && (t <? dst_end) then -420 else -480.

(** The market's open on day [ordinal] of [year]: 06:30:00 on the Pacific
    wall clock, at the offset the zone has then. *)
Definition local_market_open (year ordinal : Z) : datetime :=
  mkDT ordinal 6 30 0 0
    (Some (pacific_offset year (mkDT ordinal 6 30 0 0 None))).

(** The row predicate the two filters of [get_options_data] amount to. *)
Definition wanted (call_or_put in_or_out : option string)
    (r : nat * RawOption) : bool :=
  (if TDAClient.is_str call_or_put "call" then String.eqb (putCall (snd r)) "CALL"
   else if TDAClient.is_str call_or_put "put" then String.eqb (putCall (snd r)) "PUT"
   else true)
  && (if TDAClient.is_str in_or_out "in" then Bool.eqb (inTheMoney (snd r)) true
      else if TDAClient.is_str in_or_out "out" then Bool.eqb (inTheMoney (snd r)) false
      else true).

(** ** Further test doubles *)

(** [healthy] with [str(list)] as Python prints plain tickers. *)
Definition healthy_printing : Env :=
  mkEnv (py_float healthy) (strptime_ymd healthy) (strftime_ymd healthy)
    (ms_to_pacific healthy) YFinanceApi_rest.list_text
    (tda_get_price_history healthy) (tda_get_quote healthy)
    (tda_get_option_chain healthy) (rs_get_latest_price healthy)
    (rs_get_fundamentals healthy) (rs_get_quotes healthy)
    (ro_get_chains healthy) (yf_info healthy) (yf_options healthy)
    (yf_history healthy) (yf_download healthy) (close_panel healthy).

(** The answer of a vendor whose price history holds no candle. *)
Definition no_candles : Env :=
  mkEnv (py_float healthy) (strptime_ymd healthy) (strftime_ymd healthy)
    (ms_to_pacific healthy) (py_str_list healthy)
    (fun _ => Ok (mkResponse 200 (Ok (mkPH (Some []))) (Ok tt)))
    (tda_get_quote healthy)
    (tda_get_option_chain healthy) (rs_get_latest_price healthy)
    (rs_get_fundamentals healthy) (rs_get_quotes healthy)
    (ro_get_chains healthy) (yf_info healthy) (yf_options healthy)
    (yf_history healthy) (yf_download healthy) (close_panel healthy).

(** The answer of a vendor that lists no contract for the expiry. *)
Definition no_contracts : Env :=
  mkEnv (py_float healthy) (strptime_ymd healthy) (strftime_ymd healthy)
    (ms_to_pacific healthy) (py_str_list healthy)
    (tda_get_price_history healthy) (tda_get_quote healthy)
    (fun _ => Ok (mkResponse 200 (Ok (mkChain (Some []) (Some []))) (Ok tt)))
    (rs_get_latest_price healthy)
    (rs_get_fundamentals healthy) (rs_get_quotes healthy)
    (ro_get_chains healthy) (yf_info healthy) (yf_options healthy)
    (yf_history healthy) (yf_download healthy) (close_panel healthy).

Definition q1_2023 : Earning :=
  mkEarning 2023 1 (Some (mkReport (Some "2023-05-04")))
    (mkEps (Some "1.52") (Some "1.43")).
Definition q2_2023 : Earning :=
  mkEarning 2023 2 (Some (mkReport (Some "2023-08-03")))
    (mkEps (Some "1.26") (Some "1.19")).
Definition q3_2023 : Earning :=
  mkEarning 2023 3 (Some (mkReport (Some "2023-11-02")))
    (mkEps (Some "1.46") (Some "1.39")).

Definition yf_call_450 : YfContract := mkYfContract "SPY230505C00450000" 450 61.5 61.75 61.5.
Definition yf_put_450 : YfContract := mkYfContract "SPY230505P00450000" 450 0.5 0.75 0.5.
Definition yf_put_520 : YfContract := mkYfContract "SPY230505P00520000" 520 9.5 9.75 9.5.

Definition scripted_vendors : Vendors :=
  mkVendors
    (fun _ => Ok [q1_2023; q2_2023; q3_2023])
    (Ok ["AAPL"; "BRK.B"; "SPY"])
    (fun rows => Ok (map (fun r => mkEarningsLine (er_year r) (er_quarter r) 0
                                      0%float 0%float nan) rows))
    (fun _ _ => Ok ([yf_call_450], [yf_put_450; yf_put_520])).

Definition fresh_install : TDAClient_rest.AuthWorld :=
  TDAClient_rest.mkAuthWorld [] 0 (Ok tt) [].

(** A file system in which the process runs in [/srv/gti]: the relative
    path [token] and the absolute [/srv/gti/token] are one file. *)
Definition run_from_module_directory (path : string) : string :=
  if String.eqb path "token" then "/srv/gti/token" else path.

(** A Saturday reading of the Pacific clock on the eve of the change to
    daylight time, which came on Sunday 2024-03-10: the offset in force is
    still eight hours. *)
Definition saturday_before_clock_change : datetime :=
  mkDT (ymd2ord 2024 3 9) 10 0 0 0 (Some (-480)).

(** * Properties *)

Ltac run_monad :=
  cbv beta iota zeta
    delta [bind ret lift raise send print now_pacific atom.some fst snd
           clock ticks calls stdout].

Ltac dt_fields :=
  cbv beta iota
    delta [replace_time toordinal hour minute second microsecond utcoffset].

Lemma weekday_range (d : datetime) : 0 <= weekday d < 7.
Proof. unfold weekday. apply Z.mod_pos_bound. lia. Qed.

Lemma weekend_roll_in_range (d : datetime) :
  valid_datetime d -> 5 <= weekday d ->
  0 < toordinal d + (7 - weekday d) <= MAXORDINAL.
Proof.
  unfold valid_datetime, weekday, MINORDINAL, MAXORDINAL.
  intros (Hord & _) Hwd.
  pose proof (Z.div_mod (toordinal d + 6) 7 ltac:(lia)) as Hdm.
  pose proof (Z.mod_pos_bound (toordinal d + 6) 7 ltac:(lia)) as Hb.
  lia.
Qed.

Lemma weekend_roll_is_monday (d : datetime) :
  (toordinal d + (7 - weekday d) + 6) mod 7 = 0.
Proof.
  unfold weekday.
  pose proof (Z.div_mod (toordinal d + 6) 7 ltac:(lia)) as Hdm.
  replace (toordinal d + (7 - (toordinal d + 6) mod 7) + 6)
    with (((toordinal d + 6) / 7 + 1) * 7) by lia.
  apply Z.mod_mul. lia.
Qed.

(** The window when the market-open flag is set, for any two successive
    clock readings: the first is the end, the second is rolled. *)
Lemma compute_window_from_open (lookback_days : Z) (w : World) :
  let end_date := clock w (ticks w) in
  let now := clock w (S (ticks w)) in
  valid_datetime now ->
  fst (TDAClient.compute_window lookback_days true w)
  = Ok (replace_time
          (if 5 <=? weekday now
           then mkDT (toordinal now + (7 - weekday now)) (hour now) (minute now)
                     (second now) (microsecond now) (utcoffset now)
           else now) 6 30 0 0,
        end_date).
Proof.
  intros end_date now Hvalid.
  unfold TDAClient.compute_window. run_monad.
  destruct w as [clk n cs out]; cbv beta iota delta [clock ticks] in *.
  destruct (5 <=? weekday now) eqn:Hwe; fold now; rewrite Hwe; [|reflexivity].
  apply Z.leb_le in Hwe.
  pose proof (weekday_range now) as Hr.
  pose proof (weekend_roll_in_range now Hvalid Hwe) as Hroll.
  unfold timedelta.
  replace (Z.abs (7 - weekday now) <=? MAX_DELTA_DAYS) with true
    by (symmetry; apply Z.leb_le; unfold MAX_DELTA_DAYS; lia).
  cbv beta iota. unfold dt_add.
  replace ((0 <? toordinal now + (7 - weekday now))
           && (toordinal now + (7 - weekday now) <=? MAXORDINAL)) with true.
  - reflexivity.
  - symmetry. apply andb_true_iff. split; [apply Z.ltb_lt | apply Z.leb_le]; lia.
Qed.

(** The weekend roll on the wall clock. When the clock reads a weekend
    instant [now], the window from market open starts at 06:30:00 of the
    first Monday after [now] (two days on for a Saturday, one for a Sunday),
    still at the offset of [now], and ends at [now] itself, which is not
    rolled. *)
Theorem weekend_window_starts_next_monday_open
    (now : datetime) (lookback_days : Z) (w : World) :
  valid_datetime now ->
  clock w (ticks w) = now -> clock w (S (ticks w)) = now ->
  5 <= weekday now ->
  exists start_date,
    fst (TDAClient.compute_window lookback_days true w) = Ok (start_date, now)
    /\ weekday start_date = 0
    /\ toordinal now < toordinal start_date <= toordinal now + 2
    /\ (weekday now = 5 -> toordinal start_date = toordinal now + 2)
    /\ (hour start_date, minute start_date, second start_date,
        microsecond start_date) = (6, 30, 0, 0)
    /\ utcoffset start_date = utcoffset now.
Proof.
  intros Hvalid Hend Hnow Hwe.
  pose proof (compute_window_from_open lookback_days w) as Hrun.
  cbn zeta in Hrun. rewrite Hend, Hnow in Hrun. specialize (Hrun Hvalid).
  replace (5 <=? weekday now) with true in Hrun
    by (symmetry; apply Z.leb_le; exact Hwe).
  eexists. split; [exact Hrun|].
  pose proof (weekday_range now) as Hr.
  split; [unfold weekday at 1; dt_fields; apply weekend_roll_is_monday|].
  dt_fields. repeat split; lia.
Qed.

(** On a weekend over which US/Pacific keeps its offset, the start of the
    window is the market's open of the coming Monday. *)
Lemma weekend_window_is_the_open_without_clock_change
    (year : Z) (now : datetime) (lookback_days : Z) (w : World) :
  valid_datetime now ->
  clock w (ticks w) = now -> clock w (S (ticks w)) = now ->
  5 <= weekday now ->
  utcoffset now
  = Some (pacific_offset year
            (mkDT (toordinal now + (7 - weekday now)) 6 30 0 0 None)) ->
  fst (TDAClient.compute_window lookback_days true w)
  = Ok (local_market_open year (toordinal now + (7 - weekday now)), now).
Proof.
  intros Hvalid Hend Hnow Hwe Hoffset.
  pose proof (compute_window_from_open lookback_days w) as Hrun.
  cbn zeta in Hrun. rewrite Hend, Hnow in Hrun. specialize (Hrun Hvalid).
  replace (5 <=? weekday now) with true in Hrun
    by (symmetry; apply Z.leb_le; exact Hwe).
  rewrite Hrun. unfold local_market_open, replace_time.
  cbn [toordinal utcoffset]. rewrite Hoffset. reflexivity.
Qed.

(** C5, at an input where the code departs from it. On Saturday
    2024-03-09, 10:00 Pacific standard time, the window from market open
    starts at 06:30 of Monday 2024-03-11 still at the standard offset of
    eight hours, while Pacific time stands at seven hours by then: the
    start is not Monday's market open but the instant one hour after it. *)
Theorem weekend_before_clock_change_misses_the_open :
  weekday saturday_before_clock_change = 5
  /\ fst (TDAClient.compute_window 5 true
            (world_at saturday_before_clock_change))
     = Ok (mkDT (ymd2ord 2024 3 11) 6 30 0 0 (Some (-480)),
           saturday_before_clock_change)
  /\ local_market_open 2024 (ymd2ord 2024 3 11)
     = mkDT (ymd2ord 2024 3 11) 6 30 0 0 (Some (-420))
  /\ utc_micros (mkDT (ymd2ord 2024 3 11) 6 30 0 0 (Some (-480)))
     = option_map (fun open => open + 3600 * 1000000)
         (utc_micros (local_market_open 2024 (ymd2ord 2024 3 11))).
Proof.
  split; [reflexivity|]. split; [reflexivity|]. split; reflexivity.
Qed.

(** C6. Without the market-open flag the window ends at the clock reading
    [now] and starts [lookback_days] calendar days earlier at the same time
    of day, so the start is not after the end. The start has to be a date a
    [datetime] can hold, that is, not before 0001-01-01. *)
Theorem lookback_window_is_calendar_days
    (now : datetime) (lookback_days : Z) (w : World) :
  valid_datetime now ->
  clock w (ticks w) = now ->
  0 <= lookback_days ->
  lookback_days < toordinal now ->
  let start_date :=
    mkDT (toordinal now - lookback_days) (hour now) (minute now) (second now)
         (microsecond now) (utcoffset now) in
  fst (TDAClient.compute_window lookback_days false w) = Ok (start_date, now)
  /\ dt_le start_date now.
Proof.
  intros Hvalid Hnow Hpos Hfit start_date.
  destruct Hvalid as ((Hlo & Hhi) & _).
  unfold MINORDINAL, MAXORDINAL in *.
  split.
  - destruct w as [clk n cs out]; cbv beta iota delta [clock ticks] in Hnow.
    unfold TDAClient.compute_window. run_monad. rewrite Hnow.
    unfold timedelta.
    replace (Z.abs lookback_days <=? MAX_DELTA_DAYS) with true
      by (symmetry; apply Z.leb_le; unfold MAX_DELTA_DAYS; lia).
    cbv beta iota. unfold dt_sub, dt_add.
    replace ((0 <? toordinal now + - lookback_days)
             && (toordinal now + - lookback_days <=? MAXORDINAL)) with true.
    + reflexivity.
    + symmetry. apply andb_true_iff.
      split; [apply Z.ltb_lt | apply Z.leb_le]; unfold MAXORDINAL; lia.
  - unfold dt_le, dt_micros, start_date. dt_fields.
    destruct now as [o h m sec us tz]. lia.
Qed.

(** The facade raises for the combinations it names as unsupported. *)
Lemma named_unsupported_requests_raise
    (env : Env) (ticker expiry_date frequency_window : string)
    (call_or_put in_or_out : option string) (num_bars : option Z)
    (lookback_days : Z) (keep from_open : bool) (w : World) :
  atom.get_option_chain env ticker expiry_date call_or_put in_or_out "rob" w
  = (Raise (NotImplementedError "This data source is not supported."), w)
  /\ atom.get_minute_bars env ticker frequency_window num_bars lookback_days
       keep from_open "yf" w
     = (Raise (NotImplementedError "This data source is not supported."), w).
Proof. split; reflexivity. Qed.

(** C1, at the inputs where the facade departs from it: the option chain
    asked of the Yahoo provider and the daily bars asked of the Robinhood
    provider come back as [None], nothing is raised and no vendor is
    called. *)
Theorem unsupported_requests_return_none
    (env : Env) (ticker expiry_date start_date end_date : string)
    (call_or_put in_or_out : option string) (w : World) :
  atom.get_option_chain env ticker expiry_date call_or_put in_or_out "yf" w
  = (Ok None, w)
  /\ atom.get_historical_daily_bars env ticker start_date end_date "rob" w
     = (Ok None, w).
Proof. split; reflexivity. Qed.

(** The message loop on a transport that hands over [msgs] and then fails:
    with the order-book handler as the only one registered, each message is
    printed in turn and the failure leaves the loop. *)
Lemma message_loop_delivers_then_fails (msgs : list Msg) :
  forall (e : exn) (rest : list Event) (s : StreamClient) (fuel : nat),
    inbound s = map Deliver msgs ++ TransportFails e :: rest ->
    nasdaq_book_handlers s = [TdaStream.order_book_handler] ->
    (List.length msgs < fuel)%nat ->
    exists s',
      TdaStream.message_loop fuel s = Some (e, s')
      /\ printed s' = printed s ++ msgs
      /\ reads s' = (reads s + S (List.length msgs))%nat
      /\ inbound s' = rest.
Proof.
  induction msgs as [|msg msgs IH]; intros e rest s fuel Hin Hh Hfuel.
  - destruct fuel as [|fuel]; [inversion Hfuel|].
    simpl in Hin. simpl. unfold TdaStream.handle_message. rewrite Hin.
    eexists. split; [reflexivity|]. simpl.
    repeat split; [symmetry; apply app_nil_r | lia].
  - destruct fuel as [|fuel]; [inversion Hfuel|].
    simpl in Hin, Hfuel. simpl.
    unfold TdaStream.handle_message. rewrite Hin.
    edestruct (IH e rest) as (s' & Hloop & Hout & Hreads & Hrest);
      [ | | | exists s'; split; [exact Hloop|] ].
    + simpl. reflexivity.
    + simpl. exact Hh.
    + lia.
    + simpl in Hout, Hreads. rewrite Hh in Hout. simpl in Hout.
      unfold TdaStream.order_book_handler in Hout.
      rewrite <- app_assoc in Hout. simpl in Hout.
      repeat split; [exact Hout | lia | exact Hrest].
Qed.

(** C9. On a stream whose handshake succeeds and whose transport hands over
    the messages [msgs] and then raises [e], the subscription loop prints
    exactly [msgs], in arrival order, reads once more, and [e] reaches the
    caller of the loop; the events after the failure are never read. *)
Theorem stream_delivers_until_transport_fails
    (msgs : list Msg) (e : exn) (rest : list Event) (s : StreamClient)
    (fuel : nat) :
  login_answer s = Ok tt -> qos_answer s = Ok tt -> subs_answer s = Ok tt ->
  nasdaq_book_handlers s = [] ->
  inbound s = map Deliver msgs ++ TransportFails e :: rest ->
  (List.length msgs < fuel)%nat ->
  exists s',
    TdaStream.start_data_stream fuel s = Some (e, s')
    /\ printed s' = printed s ++ msgs
    /\ reads s' = (reads s + List.length msgs + 1)%nat
    /\ inbound s' = rest.
Proof.
  intros Hlogin Hqos Hsubs Hh Hin Hfuel.
  unfold TdaStream.start_data_stream, TdaStream.read_stream,
    TdaStream.login, TdaStream.quality_of_service,
    TdaStream.nasdaq_book_subs.
  rewrite Hlogin. cbn [login_answer qos_answer subs_answer].
  rewrite Hqos. cbn [login_answer qos_answer subs_answer].
  rewrite Hsubs.
  edestruct (message_loop_delivers_then_fails msgs e rest)
    as (s' & Hloop & Hout & Hreads & Hrest);
    [ | | exact Hfuel | exists s'; split; [exact Hloop|] ].
  - simpl. exact Hin.
  - simpl. rewrite Hh. reflexivity.
  - simpl in Hout, Hreads. repeat split; [exact Hout | lia | exact Hrest].
Qed.

(** ** Flattening of the option chain *)

Section Flattening.
Variable env : Env.

Lemma kept_app (xs ys : list (string * RawOption)) :
  kept_contracts env (xs ++ ys)
  = kept_contracts env xs ++ kept_contracts env ys.
Proof. unfold kept_contracts. rewrite filter_app, map_app. reflexivity. Qed.

Lemma scan_contracts_spec (strike : string) (contracts : list RawOption) :
  forall options_list,
    (contracts <> [] -> py_float env strike <> None) ->
    TDAClient.scan_contracts env strike contracts options_list
    = Ok (options_list ++ kept_contracts env (map (pair strike) contracts)).
Proof.
  induction contracts as [|o rest IH]; intros options_list Hfloat.
  - simpl. rewrite app_nil_r. reflexivity.
  - destruct (py_float env strike) as [k|] eqn:Hk;
      [|exfalso; apply Hfloat; [discriminate | reflexivity]].
    cbn [TDAClient.scan_contracts map]. rewrite Hk.
    rewrite IH by (intros _; discriminate).
    unfold kept_contracts. cbn [filter]. unfold strike_matches at 2.
    cbn [fst snd]. rewrite Hk.
    destruct (PrimFloat.eqb k (strikePrice o)).
    + cbn [map snd]. rewrite <- app_assoc. reflexivity.
    + reflexivity.
Qed.

Lemma scan_strikes_spec (strikes : StrikeMap) :
  forall options_list,
    (forall p, In p (strike_pairs strikes) -> py_float env (fst p) <> None) ->
    TDAClient.scan_strikes env strikes options_list
    = Ok (options_list ++ kept_contracts env (strike_pairs strikes)).
Proof.
  induction strikes as [|[strike contracts] rest IH]; intros options_list Hfloat.
  - simpl. rewrite app_nil_r. reflexivity.
  - cbn [TDAClient.scan_strikes]. rewrite scan_contracts_spec.
    + rewrite IH.
      * unfold strike_pairs. cbn [flat_map fst snd]. rewrite kept_app.
        rewrite app_assoc. reflexivity.
      * intros p Hp. apply Hfloat. unfold strike_pairs. cbn [flat_map].
        apply in_or_app. right. exact Hp.
    + intros Hne. destruct contracts as [|o os]; [contradiction|].
      apply (Hfloat (strike, o)). unfold strike_pairs. cbn. left. reflexivity.
Qed.

Lemma scan_dates_spec (dates : ExpDateMap) :
  forall options_list,
    (forall p, In p (contracts_under dates) -> py_float env (fst p) <> None) ->
    TDAClient.scan_dates env dates options_list
    = Ok (options_list ++ kept_contracts env (contracts_under dates)).
Proof.
  induction dates as [|[date strikes] rest IH]; intros options_list Hfloat.
  - simpl. rewrite app_nil_r. reflexivity.
  - cbn [TDAClient.scan_dates]. rewrite scan_strikes_spec.
    + rewrite IH.
      * unfold contracts_under. cbn [flat_map snd]. rewrite kept_app.
        rewrite app_assoc. reflexivity.
      * intros p Hp. apply Hfloat. unfold contracts_under. cbn [flat_map].
        apply in_or_app. right. exact Hp.
    + intros p Hp. apply Hfloat. unfold contracts_under. cbn [flat_map snd].
      apply in_or_app. left. exact Hp.
Qed.

(** C7. Flattening visits every contract under every strike key of the call
    map and then of the put map, and keeps a contract exactly when
    [float(key)] equals the contract's own [strikePrice]; the kept contracts
    are the vendor's records as they came, in visiting order, so a contract
    found only under keys that differ from its strike is absent and no
    strike is rewritten. *)
Theorem flatten_keeps_contracts_under_their_strike
    (option_data : OptionChainJson) (call_map put_map : ExpDateMap) :
  callExpDateMap option_data = Some call_map ->
  putExpDateMap option_data = Some put_map ->
  (forall p, In p (contracts_under call_map ++ contracts_under put_map) ->
             py_float env (fst p) <> None) ->
  exists options_list,
    TDAClient.flatten_chain env option_data = Ok options_list
    /\ options_list
       = map snd (filter (strike_matches env)
                    (contracts_under call_map ++ contracts_under put_map))
    /\ (forall o, In o options_list <->
          exists key k,
            In (key, o) (contracts_under call_map ++ contracts_under put_map)
            /\ py_float env key = Some k
            /\ PrimFloat.eqb k (strikePrice o) = true).
Proof.
  intros Hcall Hput Hfloat.
  eexists. split; [|split; [reflexivity|]].
  - unfold TDAClient.flatten_chain. rewrite Hcall, Hput.
    rewrite scan_dates_spec
      by (intros p Hp; apply Hfloat; apply in_or_app; left; exact Hp).
    rewrite scan_dates_spec
      by (intros p Hp; apply Hfloat; apply in_or_app; right; exact Hp).
    cbn [app]. fold (kept_contracts env (contracts_under call_map ++ contracts_under put_map)).
    rewrite kept_app. reflexivity.
  - intros o. rewrite in_map_iff. split.
    + intros ([key o'] & Ho & Hin). cbn in Ho. subst o'.
      apply filter_In in Hin. destruct Hin as (Hin & Hm).
      unfold strike_matches in Hm. cbn [fst snd] in Hm.
      destruct (py_float env key) as [k|] eqn:Hk; [|discriminate].
      exists key, k. repeat split; assumption.
    + intros (key & k & Hin & Hk & Heq).
      exists (key, o). split; [reflexivity|].
      apply filter_In. split; [exact Hin|].
      unfold strike_matches. cbn [fst snd]. rewrite Hk. exact Heq.
Qed.

End Flattening.

(** ** Filters of the option chain *)

Lemma combine_seq_In {A} (rows : list A) :
  forall (start i : nat) (x : A),
    In (i, x) (combine (seq start (List.length rows)) rows)
    <-> (start <= i)%nat /\ nth_error rows (i - start) = Some x.
Proof.
  induction rows as [|a rows IH]; intros start i x.
  - simpl. split; [contradiction|].
    intros (_ & H). destruct (i - start)%nat; discriminate.
  - cbn [List.length seq combine In]. rewrite IH. split.
    + intros [Heq | (Hle & Hnth)].
      * inversion Heq; subst. split; [lia|].
        rewrite Nat.sub_diag. reflexivity.
      * split; [lia|].
        replace (i - start)%nat with (S (i - S start)) by lia. exact Hnth.
    + intros (Hle & Hnth).
      destruct (Nat.eq_dec start i) as [->|Hneq].
      * left. rewrite Nat.sub_diag in Hnth. cbn in Hnth.
        inversion Hnth. reflexivity.
      * right. split; [lia|].
        replace (i - start)%nat with (S (i - S start)) in Hnth by lia.
        exact Hnth.
Qed.

Lemma DataFrame_In {A} (rows : list A) (i : nat) (x : A) :
  In (i, x) (DataFrame rows) <-> nth_error rows i = Some x.
Proof.
  unfold DataFrame. rewrite combine_seq_In. rewrite Nat.sub_0_r.
  split; [intros (_ & H); exact H | intros H; split; [lia | exact H]].
Qed.

Lemma is_str_true (o : option string) (s : string) :
  TDAClient.is_str o s = true <-> o = Some s.
Proof.
  destruct o as [x|]; cbn.
  - rewrite String.eqb_eq. split; [intros ->; reflexivity | congruence].
  - split; discriminate.
Qed.

Lemma by_call_or_put_selects (options_list : list RawOption)
    (call_or_put : option string) :
  options_list <> [] ->
  call_or_put = None \/ call_or_put = Some "call" \/ call_or_put = Some "put" ->
  exists result,
    TDAClient.by_call_or_put options_list call_or_put (DataFrame options_list)
    = Ok (Some result)
    /\ forall i o,
         In (i, o) result <->
         nth_error options_list i = Some o
         /\ (call_or_put = Some "call" -> putCall o = "CALL")
         /\ (call_or_put = Some "put" -> putCall o = "PUT").
Proof.
  intros Hne Hvalid.
  destruct options_list as [|o0 rest]; [contradiction|].
  destruct Hvalid as [-> | [-> | ->]]; cbn [TDAClient.by_call_or_put];
    eexists; (split; [reflexivity|]); intros i o.
  - rewrite DataFrame_In. split; [intros H | intros (H & _); exact H].
    repeat split; [exact H | discriminate | discriminate].
  - unfold TDAClient.loc_putCall. rewrite filter_In, DataFrame_In.
    cbn [snd]. rewrite String.eqb_eq. split.
    + intros (H & Hc). repeat split; [exact H | intros _; exact Hc | discriminate].
    + intros (H & Hc & _). split; [exact H | apply Hc; reflexivity].
  - unfold TDAClient.loc_putCall. rewrite filter_In, DataFrame_In.
    cbn [snd]. rewrite String.eqb_eq. split.
    + intros (H & Hc). repeat split; [exact H | discriminate | intros _; exact Hc].
    + intros (H & _ & Hc). split; [exact H | apply Hc; reflexivity].
Qed.

Lemma by_in_or_out_selects (options_list : list RawOption)
    (in_or_out : option string) (result : list (nat * RawOption)) :
  options_list <> [] ->
  exists result',
    TDAClient.by_in_or_out options_list in_or_out result = Ok result'
    /\ (forall i o,
          In (i, o) result' ->
          In (i, o) result
          /\ (in_or_out = Some "in" -> inTheMoney o = true)
          /\ (in_or_out = Some "out" -> inTheMoney o = false))
    /\ (in_or_out = None -> result' = result).
Proof.
  intros Hne. destruct options_list as [|o0 rest]; [contradiction|].
  unfold TDAClient.by_in_or_out. cbn [column].
  destruct (TDAClient.is_str in_or_out "in") eqn:Hin.
  - apply is_str_true in Hin. subst in_or_out.
    eexists. split; [reflexivity|]. split; [|discriminate].
    intros i o H. unfold TDAClient.loc_inTheMoney in H.
    apply filter_In in H. destruct H as (H & Hm). cbn [snd] in Hm.
    apply Bool.eqb_prop in Hm.
    repeat split; [exact H | intros _; exact Hm | discriminate].
  - destruct (TDAClient.is_str in_or_out "out") eqn:Hout.
    + apply is_str_true in Hout. subst in_or_out.
      eexists. split; [reflexivity|]. split; [|discriminate].
      intros i o H. unfold TDAClient.loc_inTheMoney in H.
      apply filter_In in H. destruct H as (H & Hm). cbn [snd] in Hm.
      apply Bool.eqb_prop in Hm.
      repeat split; [exact H | discriminate | intros _; exact Hm].
    + eexists. split; [reflexivity|]. split; [|reflexivity].
      intros i o H. repeat split; [exact H | |]; intros ->; discriminate.
Qed.

(** C8. Once the chain is fetched and flattened into a non-empty
    [options_list], a request with the call, the put or no type filter
    returns a frame. Each row of it is the projection of the contract at the
    row's index, and that contract is a CALL under the call filter, a PUT
    under the put filter, in the money under ["in"] and out of the money
    under ["out"]. With the moneyness filter unspecified every contract that
    passes the type filter is returned. *)
Theorem option_filters_select_what_was_asked
    (env : Env) (symbol strike_date : string) (strike_price : option float)
    (call_or_put in_or_out : option string) (w w' : World)
    (options_list : list RawOption) :
  TDAClient.fetch_options_list env symbol strike_date strike_price w
  = (Ok options_list, w') ->
  options_list <> [] ->
  call_or_put = None \/ call_or_put = Some "call" \/ call_or_put = Some "put" ->
  exists rows,
    TDAClient.get_options_data env symbol strike_date strike_price
      call_or_put in_or_out w = (Ok (Frame rows), w')
    /\ (forall i row,
          In (i, row) rows ->
          exists o,
            nth_error options_list i = Some o /\ row = TDAClient.option_row o
            /\ (call_or_put = Some "call" -> putCall o = "CALL")
            /\ (call_or_put = Some "put" -> putCall o = "PUT")
            /\ (in_or_out = Some "in" -> inTheMoney o = true)
            /\ (in_or_out = Some "out" -> inTheMoney o = false))
    /\ (in_or_out = None ->
        forall i o,
          nth_error options_list i = Some o ->
          (call_or_put = Some "call" -> putCall o = "CALL") ->
          (call_or_put = Some "put" -> putCall o = "PUT") ->
          In (i, TDAClient.option_row o) rows).
Proof.
  intros Hfetch Hne Hvalid.
  destruct (by_call_or_put_selects options_list call_or_put Hne Hvalid)
    as (r1 & Hr1 & Hin1).
  destruct (by_in_or_out_selects options_list in_or_out r1 Hne)
    as (r2 & Hr2 & Hin2 & Hall2).
  exists (map (fun r => (fst r, TDAClient.option_row (snd r))) r2).
  split; [|split].
  - unfold TDAClient.get_options_data, bind, lift. rewrite Hfetch.
    unfold TDAClient.filter_options. rewrite Hr1, Hr2.
    unfold TDAClient.select_columns.
    destruct options_list; [contradiction | reflexivity].
  - intros i row Hrow. apply in_map_iff in Hrow.
    destruct Hrow as ([j o] & Heq & Hin). cbn [fst snd] in Heq.
    inversion Heq; subst. exists o.
    apply Hin2 in Hin. destruct Hin as (Hin & Hi & Ho).
    apply Hin1 in Hin. destruct Hin as (Hnth & Hc & Hp).
    repeat split; assumption.
  - intros Hnone i o Hnth Hc Hp. rewrite (Hall2 Hnone).
    apply in_map_iff. exists (i, o). split; [reflexivity|].
    apply Hin1. repeat split; assumption.
Qed.

(** C2, as the code has it. A request whose call/put filter is some text
    other than ["call"] and ["put"] raises nothing for it: whatever the
    fetch raised is raised, and otherwise the result is the text
    ["please input call or put"]. A frame, filtered or not, is never
    returned. *)
Theorem invalid_filter_returns_text
    (env : Env) (symbol strike_date : string) (strike_price : option float)
    (s : string) (in_or_out : option string) (w : World) :
  s <> "call" -> s <> "put" ->
  TDAClient.get_options_data env symbol strike_date strike_price (Some s)
    in_or_out w
  = (match fst (TDAClient.fetch_options_list env symbol strike_date
                  strike_price w) with
     | Ok _ => Ok (Message "please input call or put")
     | Raise e => Raise e
     end,
     snd (TDAClient.fetch_options_list env symbol strike_date strike_price w))
  /\ forall rows,
       fst (TDAClient.get_options_data env symbol strike_date strike_price
              (Some s) in_or_out w) <> Ok (Frame rows).
Proof.
  intros Hcall Hput.
  apply String.eqb_neq in Hcall. apply String.eqb_neq in Hput.
  assert (Hrun :
    TDAClient.get_options_data env symbol strike_date strike_price (Some s)
      in_or_out w
    = (match fst (TDAClient.fetch_options_list env symbol strike_date
                    strike_price w) with
       | Ok _ => Ok (Message "please input call or put")
       | Raise e => Raise e
       end,
       snd (TDAClient.fetch_options_list env symbol strike_date strike_price w))).
  { unfold TDAClient.get_options_data, bind, lift.
    destruct (TDAClient.fetch_options_list env symbol strike_date strike_price w)
      as [[options_list|e] w1]; cbn [fst snd]; [|reflexivity].
    unfold TDAClient.filter_options, TDAClient.by_call_or_put.
    rewrite Hcall, Hput. reflexivity. }
  split; [exact Hrun|].
  intros rows. rewrite Hrun. cbn [fst].
  destruct (fst (TDAClient.fetch_options_list env symbol strike_date
                   strike_price w)); discriminate.
Qed.

(** ** What reaches the vendors *)

Section Sending.
Context {A B : Type} (P : Request -> Prop).

Lemma sends_only_ret (a : A) : sends_only P (ret a).
Proof. intros w. exists []. rewrite app_nil_r. split; [reflexivity | constructor]. Qed.

Lemma sends_only_raise (e : exn) : sends_only P (@raise A e).
Proof. intros w. exists []. rewrite app_nil_r. split; [reflexivity | constructor]. Qed.

Lemma sends_only_lift (r : Res A) : sends_only P (lift r).
Proof. intros w. exists []. rewrite app_nil_r. split; [reflexivity | constructor]. Qed.

Lemma sends_only_send (vendor : Request -> Res A) (r : Request) :
  P r -> sends_only P (send vendor r).
Proof.
  intros Hr w. exists [r]. split; [reflexivity|].
  constructor; [exact Hr | constructor].
Qed.

Lemma sends_only_bind (c : M A) (k : A -> M B) :
  sends_only P c -> (forall a, sends_only P (k a)) -> sends_only P (bind c k).
Proof.
  intros Hc Hk w. unfold bind.
  destruct (Hc w) as (sent1 & Hcalls1 & Hall1).
  destruct (c w) as [[a|e] w1]; cbn [snd] in Hcalls1.
  - destruct (Hk a w1) as (sent2 & Hcalls2 & Hall2).
    exists (sent1 ++ sent2). split.
    + rewrite Hcalls2, Hcalls1, app_assoc. reflexivity.
    + apply Forall_app. split; assumption.
  - exists sent1. split; assumption.
Qed.

End Sending.

Lemma sends_only_now (P : Request -> Prop) : sends_only P now_pacific.
Proof. intros w. exists []. rewrite app_nil_r. split; [reflexivity | constructor]. Qed.

Lemma sends_only_print (P : Request -> Prop) (o : Output) :
  sends_only P (print o).
Proof. intros w. exists []. rewrite app_nil_r. split; [reflexivity | constructor]. Qed.

Lemma sends_exactly_only {A} (P : Request -> Prop) (r : Request) (c : M A) :
  P r -> sends_exactly r c -> sends_only P c.
Proof.
  intros Hr Hc w. exists [r]. split; [apply Hc | constructor; [exact Hr | constructor]].
Qed.

Ltac sends_step :=
  first
    [ apply sends_only_ret | apply sends_only_raise | apply sends_only_lift
    | apply sends_only_now | apply sends_only_print
    | apply sends_only_send; reflexivity
    | apply sends_only_bind; [|intros ?]
    | match goal with
      | |- sends_only _ (match ?x with _ => _ end) => destruct x
      end ].

Ltac sends := repeat sends_step.

Section TickerCase.
Variable env : Env.
Variable ticker : string.

Lemma tda_get_stock_quote_sends :
  sends_exactly (TdaGetQuote (upper ticker)) (TDAClient.get_stock_quote env ticker).
Proof.
  intros w. unfold TDAClient.get_stock_quote. run_monad.
  destruct (tda_get_quote env _) as [response|e]; [|reflexivity].
  destruct (json response) as [[|[k first_item] quote]|e]; reflexivity.
Qed.

Lemma tda_get_latest_price_sends :
  sends_exactly (TdaGetQuote (upper ticker)) (TDAClient.get_latest_price env ticker).
Proof.
  intros w. unfold TDAClient.get_latest_price, bind.
  pose proof (tda_get_stock_quote_sends w) as Hq.
  destruct (TDAClient.get_stock_quote env ticker w) as [[q|e] w1];
    cbn [snd] in Hq; [|exact Hq].
  unfold lift. exact Hq.
Qed.

Lemma tda_get_open_price_sends :
  sends_exactly (TdaGetQuote (upper ticker)) (TDAClient.get_open_price env ticker).
Proof.
  intros w. unfold TDAClient.get_open_price, bind.
  pose proof (tda_get_stock_quote_sends w) as Hq.
  destruct (TDAClient.get_stock_quote env ticker w) as [[q|e] w1];
    cbn [snd] in Hq; [|exact Hq].
  unfold lift. exact Hq.
Qed.

Lemma tda_get_option_dates_sends :
  sends_exactly
    (TdaGetOptionChain (upper ticker) None (Some ContractType_ALL) None None)
    (TDAClient.get_option_dates env ticker).
Proof.
  intros w. unfold TDAClient.get_option_dates. run_monad.
  destruct (tda_get_option_chain env _) as [response|e]; [|reflexivity].
  destruct (raise_for_status response); [|reflexivity].
  destruct (json response) as [doc|e]; [|reflexivity].
  destruct (callExpDateMap doc); [|reflexivity].
  destruct (putExpDateMap doc); reflexivity.
Qed.

Lemma tda_get_historical_daily_bar_sends (start_date end_date : string) :
  sends_only (in_upper_case ticker)
    (TDAClient.get_historical_daily_bar env ticker start_date end_date).
Proof. unfold TDAClient.get_historical_daily_bar. sends. Qed.

Lemma compute_window_sends (lookback_days : Z) (from_market_open : bool) :
  sends_only (in_upper_case ticker) (TDAClient.compute_window lookback_days from_market_open).
Proof. unfold TDAClient.compute_window. sends. Qed.

Lemma tda_get_minute_bars_sends (frequency_window : string)
    (num_bars : option Z) (lookback_days : Z) (keep from_open : bool) :
  sends_only (in_upper_case ticker)
    (TDAClient.get_minute_bars env ticker frequency_window num_bars
       lookback_days keep from_open).
Proof.
  unfold TDAClient.get_minute_bars.
  apply sends_only_bind; [apply compute_window_sends | intros [start_date end_date]].
  sends.
Qed.

Lemma tda_get_options_data_sends (strike_date : string)
    (strike_price : option float) (call_or_put in_or_out : option string) :
  sends_only (in_upper_case ticker)
    (TDAClient.get_options_data env ticker strike_date strike_price
       call_or_put in_or_out).
Proof.
  unfold TDAClient.get_options_data, TDAClient.fetch_options_list. sends.
Qed.

Lemma yf_get_latest_price_sends :
  sends_exactly (YfTickerInfo (upper ticker)) (YFinanceApi.get_latest_price env ticker).
Proof.
  intros w. unfold YFinanceApi.get_latest_price. run_monad.
  destruct (yf_info env _) as [info|e]; reflexivity.
Qed.

Lemma yf_get_open_price_sends :
  sends_exactly (YfTickerInfo (upper ticker)) (YFinanceApi.get_open_price env ticker).
Proof.
  intros w. unfold YFinanceApi.get_open_price. run_monad.
  destruct (yf_info env _) as [info|e]; reflexivity.
Qed.

Lemma yf_get_option_dates_sends :
  sends_exactly (YfTickerOptions (upper ticker)) (YFinanceApi.get_option_dates env ticker).
Proof. intros w. reflexivity. Qed.

Lemma yf_get_historical_daily_bar_sends (start_date end_date : string) :
  sends_exactly (YfTickerHistory (upper ticker) start_date end_date)
    (YFinanceApi.get_historical_daily_bar env ticker start_date end_date).
Proof.
  intros w. unfold YFinanceApi.get_historical_daily_bar. run_monad.
  destruct (yf_history env _) as [df|e]; reflexivity.
Qed.

Lemma rob_get_latest_price_sends :
  sends_exactly (RsGetLatestPrice ticker) (RobinhoodStocks.get_latest_price env ticker).
Proof.
  intros w. unfold RobinhoodStocks.get_latest_price. run_monad.
  destruct (rs_get_latest_price env _) as [r|e]; reflexivity.
Qed.

Lemma rob_get_open_price_sends :
  sends_exactly (RsGetFundamentals ticker (Some "open"))
    (RobinhoodStocks.get_open_price env ticker).
Proof.
  intros w. unfold RobinhoodStocks.get_open_price. run_monad.
  destruct (rs_get_fundamentals env _) as [r|e]; reflexivity.
Qed.

Lemma rob_get_quotes_sends :
  sends_exactly (RsGetQuotes ticker) (RobinhoodStocks.get_quotes env ticker).
Proof.
  intros w. unfold RobinhoodStocks.get_quotes. run_monad.
  destruct (rs_get_quotes env _) as [[|q r]|e]; reflexivity.
Qed.

Lemma rob_get_option_dates_sends :
  sends_exactly (RoGetChains ticker) (RobinhoodStocks.get_option_dates env ticker).
Proof.
  intros w. unfold RobinhoodStocks.get_option_dates. run_monad.
  destruct (ro_get_chains env _) as [r|e]; reflexivity.
Qed.

End TickerCase.

(** C3, as the code has it. The single-ticker operations of the TD
    Ameritrade and the Yahoo adapters hand the vendor the ticker in upper
    case, whatever the caller's casing; the Robinhood adapter hands over
    the ticker as the caller wrote it. *)
Theorem tickers_as_the_vendors_receive_them (env : Env) (ticker : string) :
  (sends_exactly (TdaGetQuote (upper ticker))
     (TDAClient.get_stock_quote env ticker)
   /\ sends_exactly (TdaGetQuote (upper ticker))
        (TDAClient.get_latest_price env ticker)
   /\ sends_exactly (TdaGetQuote (upper ticker))
        (TDAClient.get_open_price env ticker)
   /\ sends_exactly
        (TdaGetOptionChain (upper ticker) None (Some ContractType_ALL) None None)
        (TDAClient.get_option_dates env ticker)
   /\ (forall start_date end_date,
         sends_only (in_upper_case ticker)
           (TDAClient.get_historical_daily_bar env ticker start_date end_date))
   /\ (forall frequency_window num_bars lookback_days keep from_open,
         sends_only (in_upper_case ticker)
           (TDAClient.get_minute_bars env ticker frequency_window num_bars
              lookback_days keep from_open))
   /\ (forall strike_date strike_price call_or_put in_or_out,
         sends_only (in_upper_case ticker)
           (TDAClient.get_options_data env ticker strike_date strike_price
              call_or_put in_or_out)))
  /\ (sends_exactly (YfTickerInfo (upper ticker))
        (YFinanceApi.get_latest_price env ticker)
      /\ sends_exactly (YfTickerInfo (upper ticker))
           (YFinanceApi.get_open_price env ticker)
      /\ sends_exactly (YfTickerOptions (upper ticker))
           (YFinanceApi.get_option_dates env ticker)
      /\ (forall start_date end_date,
            sends_exactly (YfTickerHistory (upper ticker) start_date end_date)
              (YFinanceApi.get_historical_daily_bar env ticker start_date
                 end_date)))
  /\ (sends_exactly (RsGetLatestPrice ticker)
        (RobinhoodStocks.get_latest_price env ticker)
      /\ sends_exactly (RsGetFundamentals ticker (Some "open"))
           (RobinhoodStocks.get_open_price env ticker)
      /\ sends_exactly (RsGetQuotes ticker)
           (RobinhoodStocks.get_quotes env ticker)
      /\ sends_exactly (RoGetChains ticker)
           (RobinhoodStocks.get_option_dates env ticker)).
Proof.
  repeat apply conj.
  - apply tda_get_stock_quote_sends.
  - apply tda_get_latest_price_sends.
  - apply tda_get_open_price_sends.
  - apply tda_get_option_dates_sends.
  - apply tda_get_historical_daily_bar_sends.
  - apply tda_get_minute_bars_sends.
  - apply tda_get_options_data_sends.
  - apply yf_get_latest_price_sends.
  - apply yf_get_open_price_sends.
  - apply yf_get_option_dates_sends.
  - apply yf_get_historical_daily_bar_sends.
  - apply rob_get_latest_price_sends.
  - apply rob_get_open_price_sends.
  - apply rob_get_quotes_sends.
  - apply rob_get_option_dates_sends.
Qed.

(** ** Failing responses *)

(** A frame of minute bars is only ever the whole payload of a status-200
    response. *)
Lemma minute_bars_frame_is_complete
    (env : Env) (ticker frequency_window : string) (num_bars : option Z)
    (lookback_days : Z) (keep from_open : bool) (w w' : World)
    (bars : list Bar) :
  TDAClient.get_minute_bars env ticker frequency_window num_bars
    lookback_days keep from_open w = (Ok (Some bars), w') ->
  exists request response history_data,
    tda_get_price_history env request = Ok response
    /\ request_ticker request = upper ticker
    /\ status_code response = 200
    /\ json response = Ok (mkPH (Some history_data))
    /\ bars = map (TDAClient.minute_bar env) history_data.
Proof.
  unfold TDAClient.get_minute_bars. run_monad.
  destruct (TDAClient.compute_window lookback_days from_open w)
    as [[[start_date end_date]|e] w1]; [|discriminate].
  destruct (TDAClient.frequency_of frequency_window) as [frequency|e];
    [|discriminate].
  destruct (tda_get_price_history env _) as [response|e] eqn:Hsent;
    [|discriminate].
  destruct (status_code response =? 200) eqn:Hstatus; [|discriminate].
  destruct (json response) as [[[history_data|]]|e] eqn:Hjson;
    cbn [candles of_option]; try discriminate.
  destruct (column history_data "datetime"); [|discriminate].
  intros H. inversion H; subst.
  apply Z.eqb_eq in Hstatus.
  eexists _, response, history_data.
  repeat split; [exact Hsent | reflexivity | exact Hstatus | exact Hjson].
Qed.

(** C4, as the code has it. When the price-history response to a
    minute-bar request carries a status other than 200 the adapter raises
    nothing: it prints the ticker and the status and returns [None]. It does
    not return a partly filled frame: a frame comes back only for a
    status-200 response and holds one bar for each candle of its payload.
    The option requests do raise when [raise_for_status] of the response
    raises. *)
Theorem failed_minute_request_returns_none :
  (forall (env : Env) (ticker frequency_window : string) (num_bars : option Z)
          (lookback_days : Z) (keep from_open : bool) (w w1 : World)
          (start_date end_date : datetime) (frequency : Frequency)
          (response : Response PriceHistoryJson),
      TDAClient.compute_window lookback_days from_open w
      = (Ok (start_date, end_date), w1) ->
      TDAClient.frequency_of frequency_window = Ok frequency ->
      tda_get_price_history env
        (TdaGetPriceHistory (upper ticker) PeriodType_DAY FrequencyType_MINUTE
           (Some frequency) start_date end_date (Some keep)) = Ok response ->
      status_code response <> 200 ->
      TDAClient.get_minute_bars env ticker frequency_window num_bars
        lookback_days keep from_open w
      = (Ok None,
         mkWorld (clock w1) (ticks w1)
           (calls w1 ++
            [TdaGetPriceHistory (upper ticker) PeriodType_DAY
               FrequencyType_MINUTE (Some frequency) start_date end_date
               (Some keep)])
           (stdout w1 ++ [ErrorRetrievingData ticker (status_code response)])))
  /\ (forall (env : Env) (ticker frequency_window : string)
             (num_bars : option Z) (lookback_days : Z) (keep from_open : bool)
             (w w' : World) (bars : list Bar),
         TDAClient.get_minute_bars env ticker frequency_window num_bars
           lookback_days keep from_open w = (Ok (Some bars), w') ->
         exists request response history_data,
           tda_get_price_history env request = Ok response
           /\ status_code response = 200
           /\ json response = Ok (mkPH (Some history_data))
           /\ bars = map (TDAClient.minute_bar env) history_data)
  /\ (forall (env : Env) (ticker : string) (w : World)
             (response : Response OptionChainJson) (e : exn),
         tda_get_option_chain env
           (TdaGetOptionChain (upper ticker) None (Some ContractType_ALL)
              None None) = Ok response ->
         raise_for_status response = Raise e ->
         fst (TDAClient.get_option_dates env ticker w) = Raise e).
Proof.
  split; [|split].
  - intros env ticker frequency_window num_bars lookback_days keep from_open
      w w1 start_date end_date frequency response Hwindow Hfreq Hsent Hstatus.
    unfold TDAClient.get_minute_bars. run_monad.
    rewrite Hwindow, Hfreq, Hsent.
    apply Z.eqb_neq in Hstatus. rewrite Hstatus. reflexivity.
  - intros env ticker frequency_window num_bars lookback_days keep from_open
      w w' bars Hrun.
    destruct (minute_bars_frame_is_complete _ _ _ _ _ _ _ _ _ _ Hrun)
      as (request & response & history_data & H1 & _ & H2 & H3 & H4).
    exists request, response, history_data. repeat split; assumption.
  - intros env ticker w response e Hsent Hstatus.
    unfold TDAClient.get_option_dates. run_monad.
    rewrite Hsent, Hstatus. reflexivity.
Qed.

(** C10. [num_bars] does not reach the result of the minute-bar operation:
    whatever it is, the outcome and the world are those of the call that
    leaves it unspecified, and a frame that comes back holds one bar for
    every candle of the vendor's payload, not the last [num_bars] of
    them. *)
Theorem num_bars_is_ignored
    (env : Env) (ticker frequency_window : string) (num_bars : option Z)
    (lookback_days : Z) (keep_non_trading_hours from_market_open : bool)
    (w : World) :
  TDAClient.get_minute_bars env ticker frequency_window num_bars
    lookback_days keep_non_trading_hours from_market_open w
  = TDAClient.get_minute_bars env ticker frequency_window None
      lookback_days keep_non_trading_hours from_market_open w
  /\ forall bars w',
       TDAClient.get_minute_bars env ticker frequency_window num_bars
         lookback_days keep_non_trading_hours from_market_open w
       = (Ok (Some bars), w') ->
       exists request response history_data,
         tda_get_price_history env request = Ok response
         /\ json response = Ok (mkPH (Some history_data))
         /\ bars = map (TDAClient.minute_bar env) history_data
         /\ List.length bars = List.length history_data.
Proof.
  split; [reflexivity|].
  intros bars w' Hrun.
  destruct (minute_bars_frame_is_complete _ _ _ _ _ _ _ _ _ _ Hrun)
    as (request & response & history_data & Hsent & _ & _ & Hjson & Hbars).
  exists request, response, history_data.
  repeat split; try assumption.
  rewrite Hbars. apply length_map.
Qed.

(** * The properties on the test doubles *)

Example saturday_rolls_to_monday_open :
  fst (TDAClient.compute_window 5 true (world_at saturday_10am))
  = Ok (mk_datetime 2024 3 18 6 30, saturday_10am).
Proof. reflexivity. Qed.

Example sunday_rolls_to_monday_open :
  fst (TDAClient.compute_window 5 true (world_at (mk_datetime 2024 3 17 23 59)))
  = Ok (mk_datetime 2024 3 18 6 30, mk_datetime 2024 3 17 23 59).
Proof. reflexivity. Qed.

Example pacific_offsets_of_2024 :
  map (pacific_offset 2024)
    [mk_datetime 2024 3 9 10 0; mk_datetime 2024 3 10 1 59;
     mk_datetime 2024 3 10 2 0; mk_datetime 2024 3 11 6 30;
     mk_datetime 2024 11 3 1 59; mk_datetime 2024 11 3 2 0]
  = [-480; -480; -420; -420; -420; -480].
Proof. reflexivity. Qed.

Example ordinary_saturday_reaches_the_open :
  fst (TDAClient.compute_window 5 true
         (world_at (mkDT (ymd2ord 2024 3 16) 10 0 0 0 (Some (-420)))))
  = Ok (local_market_open 2024 (ymd2ord 2024 3 18),
        mkDT (ymd2ord 2024 3 16) 10 0 0 0 (Some (-420))).
Proof.
  apply (weekend_window_is_the_open_without_clock_change 2024
           (mkDT (ymd2ord 2024 3 16) 10 0 0 0 (Some (-420))) 5);
    first [ reflexivity
          | unfold valid_datetime; vm_compute; intuition discriminate
          | vm_compute; discriminate ].
Qed.

Example friday_is_not_rolled :
  fst (TDAClient.compute_window 5 true (world_at friday_10am))
  = Ok (mk_datetime 2024 3 15 6 30, friday_10am).
Proof. reflexivity. Qed.

Example lookback_before_year_one_overflows :
  fst (TDAClient.compute_window 1000000 false (world_at friday_10am))
  = Raise OverflowError.
Proof. reflexivity. Qed.

Example stray_contract_is_dropped :
  TDAClient.flatten_chain healthy spy_chain
  = Ok [call_450; call_520; put_450; put_520].
Proof. vm_compute. reflexivity. Qed.

Example calls_in_the_money :
  fst (TDAClient.get_options_data healthy "spy" "2023-05-05" None
         (Some "call") (Some "in") (world_at friday_10am))
  = Ok (Frame [(0%nat, TDAClient.option_row call_450)]).
Proof. vm_compute. reflexivity. Qed.

Lemma num_bars_witness :
  exists bars w',
    TDAClient.get_minute_bars healthy "spy" "1m" (Some 1) 5 true false
      (world_at friday_10am) = (Ok (Some bars), w')
    /\ TDAClient.get_minute_bars healthy "spy" "1m" None 5 true false
         (world_at friday_10am) = (Ok (Some bars), w')
    /\ List.length bars = 3%nat.
Proof.
  destruct (TDAClient.get_minute_bars healthy "spy" "1m" (Some 1) 5 true
              false (world_at friday_10am)) as [[[bars|]|e] w'] eqn:Hrun;
    try (vm_compute in Hrun; discriminate).
  exists bars, w'. split; [reflexivity|].
  destruct (num_bars_is_ignored healthy "spy" "1m" (Some 1) 5 true false
              (world_at friday_10am)) as (Hsame & Hfull).
  split; [rewrite <- Hsame; exact Hrun|].
  vm_compute in Hrun. inversion Hrun. reflexivity.
Defined.

(** C2 as stated fails: on a well-formed chain the filter value ["both"]
    is answered with a text, and nothing is raised. *)
Lemma invalid_filter_is_answered_with_text :
  fst (TDAClient.get_options_data healthy "spy" "2023-05-05" None
         (Some "both") None (world_at friday_10am))
  = Ok (Message "please input call or put")
  /\ ~ (exists e,
          fst (TDAClient.get_options_data healthy "spy" "2023-05-05" None
                 (Some "both") None (world_at friday_10am)) = Raise e).
Proof.
  split; [vm_compute; reflexivity|].
  intros [e H]. vm_compute in H. discriminate.
Qed.

Lemma invalid_filter_returns_text_witness :
  "both" <> "call" /\ "both" <> "put"
  /\ fst (TDAClient.get_options_data healthy "spy" "2023-05-05" None
            (Some "both") (Some "in") (world_at friday_10am))
     = Ok (Message "please input call or put").
Proof.
  split; [discriminate|]. split; [discriminate|].
  rewrite (proj1 (invalid_filter_returns_text healthy "spy" "2023-05-05" None
                    "both" (Some "in") (world_at friday_10am)
                    ltac:(discriminate) ltac:(discriminate))).
  vm_compute. reflexivity.
Defined.

(** C3 as stated fails: the Robinhood adapter sends the lower-case ticker
    it was given. *)
Lemma robinhood_sends_ticker_as_given :
  ~ sends_only (in_upper_case "spy")
      (RobinhoodStocks.get_latest_price healthy "spy").
Proof.
  intros H. destruct (H (world_at friday_10am)) as (sent & Hcalls & Hall).
  cbn in Hcalls. subst sent.
  inversion Hall as [|r rest Hr _]; subst.
  unfold in_upper_case in Hr. vm_compute in Hr. discriminate.
Qed.

(** C4 as stated fails: a price-history response with status 500 is
    answered with [None] and a printed line, and nothing is raised. *)
Lemma failed_minute_request_is_not_raised :
  TDAClient.get_minute_bars (scripted 500 (Ok tt)) "spy" "1m" None 5 true
    false (world_at friday_10am)
  = (Ok None,
     mkWorld (frozen_clock friday_10am) 1
       [TdaGetPriceHistory "SPY" PeriodType_DAY FrequencyType_MINUTE
          (Some EVERY_MINUTE) (mk_datetime 2024 3 10 10 0) friday_10am
          (Some true)]
       [ErrorRetrievingData "spy" 500])
  /\ ~ (exists e,
          fst (TDAClient.get_minute_bars (scripted 500 (Ok tt)) "spy" "1m"
                 None 5 true false (world_at friday_10am)) = Raise e).
Proof.
  split; [vm_compute; reflexivity|].
  intros [e H]. vm_compute in H. discriminate.
Qed.

Lemma failed_minute_request_returns_none_witness :
  500 <> 200
  /\ TDAClient.get_minute_bars (scripted 500 (Ok tt)) "spy" "1m" (Some 2) 5
       true false (world_at friday_10am)
     = (Ok None,
        mkWorld (frozen_clock friday_10am) 1
          [TdaGetPriceHistory "SPY" PeriodType_DAY FrequencyType_MINUTE
             (Some EVERY_MINUTE) (mk_datetime 2024 3 10 10 0) friday_10am
             (Some true)]
          [ErrorRetrievingData "spy" 500]).
Proof.
  split; [discriminate|].
  apply (proj1 failed_minute_request_returns_none (scripted 500 (Ok tt))
           "spy" "1m" (Some 2) 5 true false (world_at friday_10am)
           (mkWorld (frozen_clock friday_10am) 1 [] [])
           (mk_datetime 2024 3 10 10 0) friday_10am EVERY_MINUTE
           (mkResponse 500 (Ok (mkPH (Some spy_candles)))
              (Raise (HTTPError 500))));
    [reflexivity | reflexivity | reflexivity | discriminate].
Defined.

Lemma weekend_window_witness :
  valid_datetime saturday_10am /\ 5 <= weekday saturday_10am
  /\ exists start_date,
       fst (TDAClient.compute_window 5 true (world_at saturday_10am))
       = Ok (start_date, saturday_10am)
       /\ weekday start_date = 0
       /\ toordinal saturday_10am < toordinal start_date
          <= toordinal saturday_10am + 2
       /\ (weekday saturday_10am = 5 ->
           toordinal start_date = toordinal saturday_10am + 2)
       /\ (hour start_date, minute start_date, second start_date,
           microsecond start_date) = (6, 30, 0, 0)
       /\ utcoffset start_date = utcoffset saturday_10am.
Proof.
  assert (Hvalid : valid_datetime saturday_10am)
    by (unfold valid_datetime; vm_compute; intuition discriminate).
  assert (Hweekend : 5 <= weekday saturday_10am) by (vm_compute; discriminate).
  split; [exact Hvalid|]. split; [exact Hweekend|].
  exact (weekend_window_starts_next_monday_open saturday_10am 5
           (world_at saturday_10am) Hvalid eq_refl eq_refl Hweekend).
Defined.

Lemma lookback_window_witness :
  valid_datetime friday_10am /\ 0 <= 5 /\ 5 < toordinal friday_10am
  /\ fst (TDAClient.compute_window 5 false (world_at friday_10am))
     = Ok (mk_datetime 2024 3 10 10 0, mk_datetime 2024 3 15 10 0)
  /\ dt_le (mk_datetime 2024 3 10 10 0) (mk_datetime 2024 3 15 10 0).
Proof.
  assert (Hvalid : valid_datetime friday_10am)
    by (unfold valid_datetime; vm_compute; intuition discriminate).
  assert (Hpos : 0 <= 5) by discriminate.
  assert (Hfit : 5 < toordinal friday_10am) by reflexivity.
  split; [exact Hvalid|]. split; [exact Hpos|]. split; [exact Hfit|].
  exact (lookback_window_is_calendar_days friday_10am 5 (world_at friday_10am)
           Hvalid eq_refl Hpos Hfit).
Defined.

Lemma flatten_witness :
  callExpDateMap spy_chain <> None /\ putExpDateMap spy_chain <> None
  /\ exists options_list,
       TDAClient.flatten_chain healthy spy_chain = Ok options_list
       /\ options_list = [call_450; call_520; put_450; put_520]
       /\ ~ In call_stray options_list.
Proof.
  split; [discriminate|]. split; [discriminate|].
  destruct (flatten_keeps_contracts_under_their_strike healthy spy_chain
              [("2023-05-05:3", [("450.0", [call_450; call_stray]);
                                 ("520.0", [call_520])])]
              [("2023-05-05:3", [("450.0", [put_450]); ("520.0", [put_520])])]
              eq_refl eq_refl)
    as (options_list & Hrun & Hlist & _).
  - intros p Hin. cbn in Hin.
    repeat (destruct Hin as [<- | Hin]; [discriminate|]). contradiction.
  - exists options_list. split; [exact Hrun|].
    assert (Heq : options_list = [call_450; call_520; put_450; put_520])
      by (rewrite Hlist; vm_compute; reflexivity).
    split; [exact Heq|].
    rewrite Heq. cbn. intros [H | [H | [H | [H | H]]]];
      try discriminate; exact H.
Defined.

Lemma option_filters_witness :
  TDAClient.fetch_options_list healthy "spy" "2023-05-05" None
    (world_at friday_10am)
  = (Ok [call_450; call_520; put_450; put_520], after_chain_request)
  /\ exists rows,
       TDAClient.get_options_data healthy "spy" "2023-05-05" None
         (Some "call") (Some "in") (world_at friday_10am)
       = (Ok (Frame rows), after_chain_request)
       /\ forall i row,
            In (i, row) rows ->
            exists o,
              nth_error [call_450; call_520; put_450; put_520] i = Some o
              /\ row = TDAClient.option_row o
              /\ putCall o = "CALL" /\ inTheMoney o = true.
Proof.
  assert (Hfetch :
    TDAClient.fetch_options_list healthy "spy" "2023-05-05" None
      (world_at friday_10am)
    = (Ok [call_450; call_520; put_450; put_520], after_chain_request))
    by (vm_compute; reflexivity).
  split; [exact Hfetch|].
  destruct (option_filters_select_what_was_asked healthy "spy" "2023-05-05"
              None (Some "call") (Some "in") (world_at friday_10am)
              after_chain_request [call_450; call_520; put_450; put_520]
              Hfetch ltac:(discriminate) (or_intror (or_introl eq_refl)))
    as (rows & Hrun & Hsound & _).
  exists rows. split; [exact Hrun|].
  intros i row Hin.
  destruct (Hsound i row Hin) as (o & Hnth & Hrow & Hcall & _ & Hmoney & _).
  exists o. repeat split;
    [exact Hnth | exact Hrow | exact (Hcall eq_refl) | exact (Hmoney eq_refl)].
Defined.

Lemma stream_witness :
  exists s',
    TdaStream.start_data_stream 10
      (stream_double ["bid 510.25"; "ask 510.50"; "bid 510.30"]
         (VendorError "connection closed"))
    = Some (VendorError "connection closed", s')
    /\ printed s' = ["bid 510.25"; "ask 510.50"; "bid 510.30"]
    /\ reads s' = 4%nat
    /\ inbound s' = [].
Proof.
  exact (stream_delivers_until_transport_fails
           ["bid 510.25"; "ask 510.50"; "bid 510.30"]
           (VendorError "connection closed") []
           (stream_double ["bid 510.25"; "ask 510.50"; "bid 510.30"]
              (VendorError "connection closed"))
           10 eq_refl eq_refl eq_refl eq_refl eq_refl
           ltac:(cbn; repeat constructor)).
Defined.

Example stream_still_running_without_failure :
  TdaStream.start_data_stream 10
    (mkStream (Ok tt) (Ok tt) (Ok tt) [Deliver "bid 510.25"] false None [] []
       0 [])
  = None.
Proof. reflexivity. Qed.

Example stream_handshake_failure_reaches_caller :
  option_map fst
    (TdaStream.start_data_stream 10
       (mkStream (Raise (VendorError "login refused")) (Ok tt) (Ok tt)
          [Deliver "bid 510.25"] false None [] [] 0 []))
  = Some (VendorError "login refused").
Proof. reflexivity. Qed.

(** * Further properties *)

(** ** Trading hours and the request window *)

(** X1. [is_trading_hour] holds exactly on Monday to Friday from 06:30
    inclusive to 13:00 exclusive, Pacific time. *)
Theorem is_trading_hour_is_the_pacific_session (env : Env) (dt : Z) :
  0 <= minute (ms_to_pacific env dt) < 60 ->
  (TDAClient_rest.is_trading_hour env dt = true
   <-> weekday (ms_to_pacific env dt) < 5
       /\ 390 <= minute_of_day (ms_to_pacific env dt) < 780).
Proof.
  intros Hminute.
  unfold TDAClient_rest.is_trading_hour, TDAClient_rest.pair_le,
    TDAClient_rest.pair_lt, minute_of_day.
  cbv zeta. cbn [fst snd].
  set (d := ms_to_pacific env dt) in *.
  rewrite !andb_true_iff, !orb_true_iff, !andb_true_iff.
  rewrite !Z.ltb_lt, !Z.eqb_eq, !Z.leb_le.
  lia.
Qed.

Lemma is_trading_hour_witness :
  0 <= minute (ms_to_pacific healthy 1710511200000) < 60
  /\ TDAClient_rest.is_trading_hour healthy 1710511200000 = true
  /\ TDAClient_rest.is_trading_hour healthy (1710511200000 + 6 * 3600000) = false.
Proof.
  assert (Hminute : 0 <= minute (ms_to_pacific healthy 1710511200000) < 60)
    by (vm_compute; split; [discriminate | reflexivity]).
  split; [exact Hminute|]. split.
  - apply (is_trading_hour_is_the_pacific_session healthy 1710511200000 Hminute).
    vm_compute. split; [reflexivity | split; [discriminate | reflexivity]].
  - reflexivity.
Defined.

(** X2. On a weekend the window from market open is inverted: its start,
    the coming Monday's open, lies after its end, the current instant. *)
Theorem weekend_window_starts_after_it_ends
    (now : datetime) (lookback_days : Z) (w : World) :
  valid_datetime now ->
  clock w (ticks w) = now -> clock w (S (ticks w)) = now ->
  5 <= weekday now ->
  exists start_date,
    fst (TDAClient.compute_window lookback_days true w) = Ok (start_date, now)
    /\ dt_micros now < dt_micros start_date.
Proof.
  intros Hvalid Hend Hnow Hwe.
  pose proof (compute_window_from_open lookback_days w) as Hrun.
  cbn zeta in Hrun. rewrite Hend, Hnow in Hrun. specialize (Hrun Hvalid).
  replace (5 <=? weekday now) with true in Hrun
    by (symmetry; apply Z.leb_le; exact Hwe).
  eexists. split; [exact Hrun|].
  pose proof (weekday_range now) as Hr.
  destruct Hvalid as (_ & Hh & Hm & Hs & Hus).
  unfold dt_micros. dt_fields.
  destruct now as [o h m sec us tz].
  cbn [toordinal hour minute second microsecond utcoffset] in *.
  lia.
Qed.

Lemma weekend_window_inverted_witness :
  valid_datetime saturday_10am /\ 5 <= weekday saturday_10am
  /\ exists start_date,
       fst (TDAClient.compute_window 5 true (world_at saturday_10am))
       = Ok (start_date, saturday_10am)
       /\ dt_micros saturday_10am < dt_micros start_date.
Proof.
  assert (Hvalid : valid_datetime saturday_10am)
    by (unfold valid_datetime; vm_compute; intuition discriminate).
  assert (Hweekend : 5 <= weekday saturday_10am) by (vm_compute; discriminate).
  split; [exact Hvalid|]. split; [exact Hweekend|].
  exact (weekend_window_starts_after_it_ends saturday_10am 5
           (world_at saturday_10am) Hvalid eq_refl eq_refl Hweekend).
Defined.

(** X3. From Monday to Friday the window from market open starts at 06:30:00
    of the current day and ends now; the start is not after the end exactly
    when it is 06:30 or later. *)
Theorem weekday_window_starts_at_todays_open
    (now : datetime) (lookback_days : Z) (w : World) :
  valid_datetime now ->
  clock w (ticks w) = now -> clock w (S (ticks w)) = now ->
  weekday now < 5 ->
  fst (TDAClient.compute_window lookback_days true w)
  = Ok (mkDT (toordinal now) 6 30 0 0 (utcoffset now), now)
  /\ (dt_le (mkDT (toordinal now) 6 30 0 0 (utcoffset now)) now
      <-> 390 <= minute_of_day now).
Proof.
  intros Hvalid Hend Hnow Hwd.
  pose proof (compute_window_from_open lookback_days w) as Hrun.
  cbn zeta in Hrun. rewrite Hend, Hnow in Hrun. specialize (Hrun Hvalid).
  replace (5 <=? weekday now) with false in Hrun
    by (symmetry; apply Z.leb_gt; exact Hwd).
  split; [exact Hrun|].
  destruct Hvalid as (_ & Hh & Hm & Hs & Hus).
  unfold dt_le, dt_micros, minute_of_day. dt_fields.
  destruct now as [o h m sec us tz]. cbn [toordinal hour minute second microsecond utcoffset] in *.
  lia.
Qed.

Lemma weekday_window_witness :
  valid_datetime friday_10am /\ weekday friday_10am < 5
  /\ fst (TDAClient.compute_window 5 true (world_at friday_10am))
     = Ok (mk_datetime 2024 3 15 6 30, friday_10am)
  /\ dt_le (mk_datetime 2024 3 15 6 30) friday_10am.
Proof.
  assert (Hvalid : valid_datetime friday_10am)
    by (unfold valid_datetime; vm_compute; intuition discriminate).
  assert (Hwd : weekday friday_10am < 5) by reflexivity.
  split; [exact Hvalid|]. split; [exact Hwd|].
  destruct (weekday_window_starts_at_todays_open friday_10am 5
              (world_at friday_10am) Hvalid eq_refl eq_refl Hwd) as (Hrun & Hle).
  split; [exact Hrun|].
  apply Hle. vm_compute. discriminate.
Defined.

(** ** Requests that are refused or answered with nothing *)

Lemma compute_window_keeps_calls (lookback_days : Z) (from_market_open : bool)
    (w : World) :
  calls (snd (TDAClient.compute_window lookback_days from_market_open w))
  = calls w.
Proof.
  unfold TDAClient.compute_window. destruct w as [clk n cs out].
  run_monad. destruct from_market_open.
  - destruct (5 <=? weekday (clk (S n))); [|reflexivity].
    destruct (timedelta (7 - weekday (clk (S n)))) as [delta|e]; [|reflexivity].
    destruct (dt_add (clk (S n)) delta); reflexivity.
  - destruct (timedelta lookback_days) as [delta|e]; [|reflexivity].
    destruct (dt_sub (clk n) delta); reflexivity.
Qed.

Lemma frequency_of_unknown (frequency_window : string) :
  frequency_window <> "1m" -> frequency_window <> "5m" ->
  frequency_window <> "10m" -> frequency_window <> "15m" ->
  frequency_window <> "30m" ->
  TDAClient.frequency_of frequency_window
  = Raise (ValueError "Please select from 1m, 5m, 10m, 15m, 30m").
Proof.
  intros H1 H5 H10 H15 H30. unfold TDAClient.frequency_of.
  apply String.eqb_neq in H1, H5, H10, H15, H30.
  rewrite H1, H5, H10, H15, H30. reflexivity.
Qed.

(** X4. A frequency window other than 1m, 5m, 10m, 15m and 30m makes the
    minute-bar operation raise without sending any request; once the window
    of the request is computed the error is the [ValueError] that lists the
    five choices. *)
Theorem unknown_frequency_window_sends_nothing
    (env : Env) (ticker frequency_window : string) (num_bars : option Z)
    (lookback_days : Z) (keep from_open : bool) (w : World) :
  frequency_window <> "1m" -> frequency_window <> "5m" ->
  frequency_window <> "10m" -> frequency_window <> "15m" ->
  frequency_window <> "30m" ->
  calls (snd (TDAClient.get_minute_bars env ticker frequency_window num_bars
                lookback_days keep from_open w)) = calls w
  /\ (exists e,
        fst (TDAClient.get_minute_bars env ticker frequency_window num_bars
               lookback_days keep from_open w) = Raise e)
  /\ (forall window w1,
        TDAClient.compute_window lookback_days from_open w = (Ok window, w1) ->
        TDAClient.get_minute_bars env ticker frequency_window num_bars
          lookback_days keep from_open w
        = (Raise (ValueError "Please select from 1m, 5m, 10m, 15m, 30m"), w1)).
Proof.
  intros H1 H5 H10 H15 H30.
  pose proof (frequency_of_unknown frequency_window H1 H5 H10 H15 H30) as Hfreq.
  pose proof (compute_window_keeps_calls lookback_days from_open w) as Hcalls.
  unfold TDAClient.get_minute_bars, bind, lift.
  destruct (TDAClient.compute_window lookback_days from_open w)
    as [[[start_date end_date]|e] w1]; cbn [snd] in Hcalls.
  - rewrite Hfreq. cbn [fst snd]. split; [exact Hcalls|]. split.
    + eexists. reflexivity.
    + intros window w2 Heq. inversion Heq. reflexivity.
  - cbn [fst snd]. split; [exact Hcalls|]. split.
    + eexists. reflexivity.
    + intros window w2 Heq. discriminate.
Qed.

Lemma unknown_frequency_window_witness :
  "1h" <> "1m" /\ "1h" <> "5m" /\ "1h" <> "10m" /\ "1h" <> "15m"
  /\ "1h" <> "30m"
  /\ TDAClient.get_minute_bars healthy "spy" "1h" None 5 true false
       (world_at friday_10am)
     = (Raise (ValueError "Please select from 1m, 5m, 10m, 15m, 30m"),
        mkWorld (frozen_clock friday_10am) 1 [] []).
Proof.
  repeat (split; [discriminate|]).
  apply (proj2 (proj2 (unknown_frequency_window_sends_nothing healthy "spy"
                         "1h" None 5 true false (world_at friday_10am)
                         ltac:(discriminate) ltac:(discriminate)
                         ltac:(discriminate) ltac:(discriminate)
                         ltac:(discriminate)))
           (mk_datetime 2024 3 10 10 0, friday_10am)).
  reflexivity.
Defined.

(** X5. A price history without candles does not come back as an empty
    frame: with status 200 and an empty candle list the minute-bar operation
    raises [KeyError], and so does the daily-bar operation, which never
    looks at the status. *)
Theorem empty_price_history_raises_key_error :
  (forall (env : Env) (ticker frequency_window : string) (num_bars : option Z)
          (lookback_days : Z) (keep from_open : bool) (w w1 : World)
          (start_date end_date : datetime) (frequency : Frequency)
          (response : Response PriceHistoryJson),
      TDAClient.compute_window lookback_days from_open w
      = (Ok (start_date, end_date), w1) ->
      TDAClient.frequency_of frequency_window = Ok frequency ->
      tda_get_price_history env
        (TdaGetPriceHistory (upper ticker) PeriodType_DAY FrequencyType_MINUTE
           (Some frequency) start_date end_date (Some keep)) = Ok response ->
      status_code response = 200 ->
      json response = Ok (mkPH (Some [])) ->
      fst (TDAClient.get_minute_bars env ticker frequency_window num_bars
             lookback_days keep from_open w) = Raise (KeyError "datetime"))
  /\ (forall (env : Env) (ticker start_date end_date : string) (w : World)
             (start_ end_ : datetime) (response : Response PriceHistoryJson),
         strptime_ymd env start_date = Some start_ ->
         strptime_ymd env end_date = Some end_ ->
         tda_get_price_history env
           (TdaGetPriceHistory (upper ticker) PeriodType_YEAR
              FrequencyType_DAILY None start_ end_ None) = Ok response ->
         json response = Ok (mkPH (Some [])) ->
         fst (TDAClient.get_historical_daily_bar env ticker start_date
                end_date w) = Raise (KeyError "datetime")).
Proof.
  split.
  - intros env ticker frequency_window num_bars lookback_days keep from_open
      w w1 start_date end_date frequency response
      Hwindow Hfreq Hsent Hstatus Hjson.
    unfold TDAClient.get_minute_bars. run_monad.
    rewrite Hwindow, Hfreq, Hsent, Hstatus, Hjson. reflexivity.
  - intros env ticker start_date end_date w start_ end_ response
      Hstart Hend Hsent Hjson.
    unfold TDAClient.get_historical_daily_bar. run_monad.
    rewrite Hstart, Hend. cbn [of_option]. rewrite Hsent, Hjson. reflexivity.
Qed.

Lemma empty_price_history_witness :
  fst (TDAClient.get_minute_bars no_candles "spy" "5m" None 5 true false
         (world_at friday_10am)) = Raise (KeyError "datetime").
Proof.
  apply (proj1 empty_price_history_raises_key_error no_candles "spy" "5m" None
           5 true false (world_at friday_10am)
           (mkWorld (frozen_clock friday_10am) 1 [] [])
           (mk_datetime 2024 3 10 10 0) friday_10am EVERY_FIVE_MINUTES
           (mkResponse 200 (Ok (mkPH (Some []))) (Ok tt)));
    reflexivity.
Defined.

(** X6. A start or end date that does not parse as year-month-day makes the
    daily-bar operation raise [ValueError], and an expiry date that does not
    parse does the same to the option-chain operation; in both cases the
    world is left as it was, no request having been sent. *)
Theorem malformed_dates_raise_before_any_request
    (env : Env) (ticker start_date end_date : string)
    (strike_price : option float) (call_or_put in_or_out : option string)
    (w : World) :
  (strptime_ymd env start_date = None \/ strptime_ymd env end_date = None ->
   TDAClient.get_historical_daily_bar env ticker start_date end_date w
   = (Raise (ValueError "time data does not match format"), w))
  /\ (strptime_ymd env start_date = None ->
      TDAClient.get_options_data env ticker start_date strike_price
        call_or_put in_or_out w
      = (Raise (ValueError "time data does not match format"), w)).
Proof.
  split.
  - intros Hbad. unfold TDAClient.get_historical_daily_bar. run_monad.
    destruct (strptime_ymd env start_date) as [start_|] eqn:Hstart;
      [|reflexivity].
    destruct Hbad as [Hbad | Hbad]; [discriminate|].
    rewrite Hbad. reflexivity.
  - intros Hbad.
    unfold TDAClient.get_options_data, TDAClient.fetch_options_list.
    run_monad. rewrite Hbad. reflexivity.
Qed.

Lemma malformed_dates_witness :
  strptime_ymd healthy "05/05/2023" = None
  /\ TDAClient.get_options_data healthy "spy" "05/05/2023" None (Some "call")
       None (world_at friday_10am)
     = (Raise (ValueError "time data does not match format"),
        world_at friday_10am).
Proof.
  split; [reflexivity|].
  apply (proj2 (malformed_dates_raise_before_any_request healthy "spy"
                  "05/05/2023" "2023-05-05" None (Some "call") None
                  (world_at friday_10am))).
  reflexivity.
Defined.

(** ** Daily bars and expiration dates *)

Lemma daily_bar_day (c : Candle) :
  exists k,
    k * MS_PER_DAY <= c_datetime c < (k + 1) * MS_PER_DAY
    /\ Date (TDAClient.daily_bar c) = DateOnly (EPOCH_ORDINAL + k).
Proof.
  exists (c_datetime c / MS_PER_DAY). split; [|reflexivity].
  pose proof (Z.div_mod (c_datetime c) MS_PER_DAY) as Hdm.
  pose proof (Z.mod_pos_bound (c_datetime c) MS_PER_DAY) as Hb.
  unfold MS_PER_DAY in *. lia.
Qed.

(** X7. When both dates parse and the answer holds candles, the daily-bar
    operation returns one bar per candle, in the vendor's order, with the
    candle's prices and volume, dated with the UTC day its timestamp falls
    in; the status code of the answer plays no part. *)
Theorem daily_bars_follow_the_candles
    (env : Env) (ticker start_date end_date : string) (w : World)
    (start_ end_ : datetime) (response : Response PriceHistoryJson)
    (r : list Candle) :
  strptime_ymd env start_date = Some start_ ->
  strptime_ymd env end_date = Some end_ ->
  tda_get_price_history env
    (TdaGetPriceHistory (upper ticker) PeriodType_YEAR FrequencyType_DAILY
       None start_ end_ None) = Ok response ->
  json response = Ok (mkPH (Some r)) ->
  r <> [] ->
  exists bars,
    fst (TDAClient.get_historical_daily_bar env ticker start_date end_date w)
    = Ok bars
    /\ Forall2
         (fun c b =>
            (exists k,
                k * MS_PER_DAY <= c_datetime c < (k + 1) * MS_PER_DAY
                /\ Date b = DateOnly (EPOCH_ORDINAL + k))
            /\ (Open b, High b, Low b, Close b, Volume b)
               = (c_open c, c_high c, c_low c, c_close c, c_volume c))
         r bars.
Proof.
  intros Hstart Hend Hsent Hjson Hne.
  exists (map TDAClient.daily_bar r). split.
  - unfold TDAClient.get_historical_daily_bar. run_monad.
    rewrite Hstart, Hend. cbn [of_option]. rewrite Hsent, Hjson.
    destruct r; [contradiction | reflexivity].
  - clear. induction r as [|c r IH]; constructor.
    + split; [apply daily_bar_day | reflexivity].
    + exact IH.
Qed.

Lemma daily_bars_witness :
  exists bars,
    fst (TDAClient.get_historical_daily_bar (scripted 500 (Ok tt)) "spy"
           "2023-05-05" "2023-05-05" (world_at friday_10am)) = Ok bars
    /\ map Date bars
       = [DateOnly (ymd2ord 2024 3 15); DateOnly (ymd2ord 2024 3 15);
          DateOnly (ymd2ord 2024 3 15)].
Proof.
  destruct (daily_bars_follow_the_candles (scripted 500 (Ok tt)) "spy"
              "2023-05-05" "2023-05-05" (world_at friday_10am)
              (mk_datetime 2023 5 5 0 0) (mk_datetime 2023 5 5 0 0)
              (mkResponse 500 (Ok (mkPH (Some spy_candles)))
                 (Raise (HTTPError 500)))
              spy_candles eq_refl eq_refl eq_refl eq_refl
              ltac:(discriminate)) as (bars & Hrun & _).
  exists bars. split; [exact Hrun|].
  vm_compute in Hrun. inversion Hrun. reflexivity.
Defined.

Lemma before_colon_of_key (d n : string) :
  colon_free d = true -> before_colon (d ++ ":" ++ n) = d.
Proof.
  induction d as [|c d IH]; intros Hfree.
  - reflexivity.
  - cbn in Hfree. apply andb_true_iff in Hfree. destruct Hfree as (Hc & Hd).
    cbn in IH. cbn. apply negb_true_iff in Hc. rewrite Hc.
    rewrite IH by exact Hd. reflexivity.
Qed.

Lemma dates_of_entries (entries : list (string * string * StrikeMap)) :
  (forall e, In e entries -> colon_free (fst (fst e)) = true) ->
  map (fun kv : string * StrikeMap => before_colon (fst kv))
      (map expiry_entry entries)
  = map (fun e => fst (fst e)) entries.
Proof.
  induction entries as [|e entries IH]; intros Hfree.
  - reflexivity.
  - cbn [map]. unfold expiry_entry at 1. cbn [fst].
    rewrite before_colon_of_key by (apply Hfree; left; reflexivity).
    rewrite IH by (intros e' He'; apply Hfree; right; exact He').
    reflexivity.
Qed.

(** X8. The option dates returned are the expiration keys of the call map
    followed by those of the put map, each cut at its colon: for keys of the
    form date, colon, days to expiration the result is the calls' dates and
    then the puts' dates, so a date present on both sides comes twice. *)
Theorem option_dates_are_the_keys_before_the_colon
    (env : Env) (ticker : string) (w : World)
    (response : Response OptionChainJson) (option_data : OptionChainJson)
    (call_entries put_entries : list (string * string * StrikeMap)) :
  tda_get_option_chain env
    (TdaGetOptionChain (upper ticker) None (Some ContractType_ALL) None None)
  = Ok response ->
  raise_for_status response = Ok tt ->
  json response = Ok option_data ->
  callExpDateMap option_data = Some (map expiry_entry call_entries) ->
  putExpDateMap option_data = Some (map expiry_entry put_entries) ->
  (forall e, In e (call_entries ++ put_entries) ->
             colon_free (fst (fst e)) = true) ->
  fst (TDAClient.get_option_dates env ticker w)
  = Ok (map (fun e => fst (fst e)) call_entries
        ++ map (fun e => fst (fst e)) put_entries).
Proof.
  intros Hsent Hstatus Hjson Hcalls Hputs Hfree.
  unfold TDAClient.get_option_dates. run_monad.
  rewrite Hsent, Hstatus, Hjson, Hcalls. cbn [of_option].
  rewrite Hputs. cbn [of_option app].
  rewrite !dates_of_entries; [reflexivity | |];
    intros e He; apply Hfree; apply in_or_app; [right | left]; exact He.
Qed.

Lemma option_dates_witness :
  fst (TDAClient.get_option_dates healthy "spy" (world_at friday_10am))
  = Ok ["2023-05-05"; "2023-05-05"].
Proof.
  apply (option_dates_are_the_keys_before_the_colon healthy "spy"
           (world_at friday_10am)
           (mkResponse 200 (Ok spy_chain) (Ok tt)) spy_chain
           [("2023-05-05", "3", [("450.0", [call_450; call_stray]);
                                 ("520.0", [call_520])])]
           [("2023-05-05", "3", [("450.0", [put_450]); ("520.0", [put_520])])]);
    try reflexivity.
  intros e He. cbn in He. destruct He as [<- | [<- | []]]; reflexivity.
Defined.

(** ** The stream before and without a transport failure *)

(** X9. When a step of the stream handshake raises (login, then quality of
    service, then the subscription), that error leaves [read_stream] at
    once, whatever the fuel: no handler is registered, no inbound event is
    read and nothing is printed. *)
Theorem failed_handshake_reads_nothing
    (s : StreamClient) (fuel : nat) (e : exn) :
  login_answer s = Raise e
  \/ (login_answer s = Ok tt /\ qos_answer s = Raise e)
  \/ (login_answer s = Ok tt /\ qos_answer s = Ok tt
      /\ subs_answer s = Raise e) ->
  exists s',
    TdaStream.read_stream fuel s = Some (e, s')
    /\ reads s' = reads s /\ printed s' = printed s
    /\ inbound s' = inbound s
    /\ nasdaq_book_handlers s' = nasdaq_book_handlers s
    /\ nasdaq_book_subscriptions s' = nasdaq_book_subscriptions s.
Proof.
  unfold TdaStream.read_stream, TdaStream.login,
    TdaStream.quality_of_service, TdaStream.nasdaq_book_subs.
  intros [Hlogin | [(Hlogin & Hqos) | (Hlogin & Hqos & Hsubs)]].
  - rewrite Hlogin. eexists. split; [reflexivity|]. cbn. auto.
  - rewrite Hlogin. cbn [login_answer qos_answer subs_answer].
    rewrite Hqos. eexists. split; [reflexivity|]. cbn. auto.
  - rewrite Hlogin. cbn [login_answer qos_answer subs_answer].
    rewrite Hqos. cbn [login_answer qos_answer subs_answer].
    rewrite Hsubs. eexists. split; [reflexivity|]. cbn. auto.
Qed.

Lemma failed_handshake_witness :
  exists s',
    TdaStream.read_stream 10
      (mkStream (Ok tt) (Raise (VendorError "qos refused")) (Ok tt)
         [Deliver "bid 510.25"] false None [] [] 0 [])
    = Some (VendorError "qos refused", s')
    /\ reads s' = 0%nat /\ printed s' = [] /\ inbound s' = [Deliver "bid 510.25"].
Proof.
  destruct (failed_handshake_reads_nothing
              (mkStream (Ok tt) (Raise (VendorError "qos refused")) (Ok tt)
                 [Deliver "bid 510.25"] false None [] [] 0 [])
              10 (VendorError "qos refused")
              (or_intror (or_introl (conj eq_refl eq_refl))))
    as (s' & Hrun & Hreads & Hout & Hin & _).
  exists s'. repeat split; assumption.
Defined.

Lemma message_loop_without_failure (fuel : nat) :
  forall (msgs : list Msg) (s : StreamClient),
    inbound s = map Deliver msgs ->
    TdaStream.message_loop fuel s = None.
Proof.
  induction fuel as [|fuel IH]; intros msgs s Hin; [reflexivity|].
  cbn [TdaStream.message_loop]. unfold TdaStream.handle_message.
  rewrite Hin. destruct msgs as [|msg msgs]; [reflexivity|].
  cbn [map]. apply (IH msgs). reflexivity.
Qed.

(** X10. The subscription loop has no exit of its own: on a stream whose
    handshake succeeds and whose transport only ever hands over messages,
    [start_data_stream] has not returned after any number of rounds. *)
Theorem stream_without_failure_never_returns
    (msgs : list Msg) (s : StreamClient) (fuel : nat) :
  login_answer s = Ok tt -> qos_answer s = Ok tt -> subs_answer s = Ok tt ->
  inbound s = map Deliver msgs ->
  TdaStream.start_data_stream fuel s = None.
Proof.
  intros Hlogin Hqos Hsubs Hin.
  unfold TdaStream.start_data_stream, TdaStream.read_stream,
    TdaStream.login, TdaStream.quality_of_service,
    TdaStream.nasdaq_book_subs.
  rewrite Hlogin. cbn [login_answer qos_answer subs_answer].
  rewrite Hqos. cbn [login_answer qos_answer subs_answer].
  rewrite Hsubs.
  apply (message_loop_without_failure fuel msgs). exact Hin.
Qed.

Lemma stream_without_failure_witness :
  TdaStream.start_data_stream 1000
    (mkStream (Ok tt) (Ok tt) (Ok tt)
       (map Deliver ["bid 510.25"; "ask 510.50"]) false None [] [] 0 [])
  = None.
Proof.
  exact (stream_without_failure_never_returns ["bid 510.25"; "ask 510.50"]
           (mkStream (Ok tt) (Ok tt) (Ok tt)
              (map Deliver ["bid 510.25"; "ask 510.50"]) false None [] [] 0 [])
           1000 eq_refl eq_refl eq_refl eq_refl).
Defined.

(** ** The facade on a provider key it does not know *)

(** X11. For a provider key other than [td], [rob] and [yf] the facade is
    uneven: latest price, open price, option dates and daily bars return
    [None] without calling any adapter, the option chain does so too unless
    the key is [yfinance], while minute bars and the many-ticker history
    raise [NotImplementedError]. *)
Theorem unknown_provider_is_answered_unevenly
    (env : Env) (ticker start_date end_date frequency_window horizon : string)
    (tickers : list string) (call_or_put in_or_out : option string)
    (num_bars : option Z) (lookback_days : Z) (keep from_open : bool)
    (source : string) (w : World) :
  source <> "td" -> source <> "rob" -> source <> "yf" ->
  atom.get_latest_price env ticker source w = (Ok None, w)
  /\ atom.get_open_price env ticker source w = (Ok None, w)
  /\ atom.get_option_dates env ticker source w = (Ok None, w)
  /\ atom.get_historical_daily_bars env ticker start_date end_date source w
     = (Ok None, w)
  /\ (source <> "yfinance" ->
      atom.get_option_chain env ticker start_date call_or_put in_or_out
        source w = (Ok None, w))
  /\ atom.get_minute_bars env ticker frequency_window num_bars lookback_days
       keep from_open source w
     = (Raise (NotImplementedError "This data source is not supported."), w)
  /\ atom.get_multi_historical_daily_bars env tickers horizon source w
     = (Raise (NotImplementedError "This data source is not supported."), w).
Proof.
  intros Htd Hrob Hyf.
  apply String.eqb_neq in Htd, Hrob, Hyf.
  unfold atom.get_latest_price, atom.get_open_price, atom.get_option_dates,
    atom.get_historical_daily_bars, atom.get_option_chain,
    atom.get_minute_bars, atom.get_multi_historical_daily_bars.
  rewrite Htd, Hrob, Hyf. cbn [orb].
  repeat apply conj; try reflexivity.
  intros Hyfinance. apply String.eqb_neq in Hyfinance.
  rewrite Hyfinance. reflexivity.
Qed.

Lemma unknown_provider_witness :
  atom.get_latest_price healthy "spy" "ib" (world_at friday_10am)
  = (Ok None, world_at friday_10am)
  /\ atom.get_minute_bars healthy "spy" "1m" None 5 true false "ib"
       (world_at friday_10am)
     = (Raise (NotImplementedError "This data source is not supported."),
        world_at friday_10am).
Proof.
  pose proof (unknown_provider_is_answered_unevenly healthy "spy" "2023-05-05"
                "2023-05-05" "1m" "1y" ["spy"] None None None 5 true false
                "ib" (world_at friday_10am)
                ltac:(discriminate) ltac:(discriminate) ltac:(discriminate))
    as (Hprice & _ & _ & _ & _ & Hminute & _).
  split; [exact Hprice | exact Hminute].
Defined.

(** ** robinhood.py: the top-100 symbols and the earnings *)

Lemma upper_lower_ascii (c : ascii) :
  upper_ascii (lower_ascii c) = upper_ascii c.
Proof.
  destruct c as [b0 b1 b2 b3 b4 b5 b6 b7].
  destruct b0, b1, b2, b3, b4, b5, b6, b7; reflexivity.
Qed.

Lemma upper_lower (s : string) : upper (lower s) = upper s.
Proof.
  induction s as [|c s IH]; [reflexivity|].
  cbn [lower upper]. rewrite upper_lower_ascii, IH. reflexivity.
Qed.

(** X12. The top-100 list is the vendor's list in lower case, entry by
    entry; since the TD Ameritrade and Yahoo adapters upper-case what they
    are given, asking them for the price of a symbol from this list is the
    same call as asking with the vendor's own spelling. *)
Theorem top100_symbols_reach_td_and_yahoo_unchanged
    (vendors : Vendors) (r : list string) :
  rm_get_top_100 vendors = Ok r ->
  exists symbols,
    RobinhoodStocks_rest.get_robinhood_top100_symbols vendors = Ok symbols
    /\ Forall2
         (fun s s' =>
            s' = lower s
            /\ forall env w,
                 TDAClient.get_latest_price env s' w
                 = TDAClient.get_latest_price env s w
                 /\ YFinanceApi.get_latest_price env s' w
                    = YFinanceApi.get_latest_price env s w)
         r symbols.
Proof.
  intros Hr. exists (map lower r). split.
  - unfold RobinhoodStocks_rest.get_robinhood_top100_symbols. rewrite Hr.
    reflexivity.
  - clear Hr. induction r as [|s r IH]; constructor; [|exact IH].
    split; [reflexivity|]. intros env w.
    unfold TDAClient.get_latest_price, TDAClient.get_stock_quote,
      YFinanceApi.get_latest_price.
    rewrite upper_lower. split; reflexivity.
Qed.

Lemma top100_witness :
  exists symbols,
    RobinhoodStocks_rest.get_robinhood_top100_symbols scripted_vendors
    = Ok symbols
    /\ symbols = ["aapl"; "brk.b"; "spy"].
Proof.
  destruct (top100_symbols_reach_td_and_yahoo_unchanged scripted_vendors
              ["AAPL"; "BRK.B"; "SPY"] eq_refl) as (symbols & Hrun & _).
  exists symbols. split; [exact Hrun|].
  vm_compute in Hrun. inversion Hrun. reflexivity.
Defined.

Lemma last_row_is_the_last (vendors : Vendors) (x : Earning) :
  forall (before : list Earning) (r : EarningRow),
    (forall i, In i before -> earning_report i <> None) ->
    RobinhoodStocks_rest.last_row (before ++ [x]) r
    = RobinhoodStocks_rest.row_of x.
Proof.
  induction before as [|i before IH]; intros r Hreports.
  - cbn. destruct (RobinhoodStocks_rest.row_of x); reflexivity.
  - cbn [app RobinhoodStocks_rest.last_row].
    unfold RobinhoodStocks_rest.row_of at 1.
    destruct (earning_report i) as [report|] eqn:Hi;
      [|exfalso; apply (Hreports i); [left; reflexivity | exact Hi]].
    apply IH. intros j Hj. apply Hreports. right. exact Hj.
Qed.

(** X13. [get_earnings] raises the plain [Exception] "No Data Available"
    when the vendor lists no earnings. Otherwise only the last entry of the
    vendor's list reaches the frame: whatever reports come before it (as
    long as each carries a report), the result is the one built from the
    last entry alone. *)
Theorem earnings_keep_only_the_last_report
    (vendors : Vendors) (ticker : string) :
  (rs_get_earnings vendors ticker = Ok [] ->
   RobinhoodStocks_rest.get_earnings vendors ticker
   = RaisedException "No Data Available")
  /\ (forall before x,
        rs_get_earnings vendors ticker = Ok (before ++ [x]) ->
        (forall i, In i before -> earning_report i <> None) ->
        RobinhoodStocks_rest.get_earnings vendors ticker
        = match RobinhoodStocks_rest.row_of x with
          | Ok r => outcome_of (pandas_earnings vendors [r])
          | Raise e => Raised e
          end).
Proof.
  split.
  - intros Hempty. unfold RobinhoodStocks_rest.get_earnings.
    rewrite Hempty. reflexivity.
  - intros before x Hsent Hreports.
    unfold RobinhoodStocks_rest.get_earnings. rewrite Hsent.
    destruct before as [|i before].
    + cbn [app RobinhoodStocks_rest.last_row].
      destruct (RobinhoodStocks_rest.row_of x); reflexivity.
    + cbn [app]. unfold RobinhoodStocks_rest.row_of at 1.
      destruct (earning_report i) as [report|] eqn:Hi;
        [|exfalso; apply (Hreports i); [left; reflexivity | exact Hi]].
      rewrite (last_row_is_the_last vendors x)
        by (intros j Hj; apply Hreports; right; exact Hj).
      destruct (RobinhoodStocks_rest.row_of x); reflexivity.
Qed.

Lemma earnings_witness :
  RobinhoodStocks_rest.get_earnings scripted_vendors "aapl"
  = Returned [mkEarningsLine 2023 3 0 0 0 nan].
Proof.
  rewrite (proj2 (earnings_keep_only_the_last_report scripted_vendors "aapl")
             [q1_2023; q2_2023] q3_2023 eq_refl).
  - reflexivity.
  - intros i Hi. cbn in Hi. destruct Hi as [<- | [<- | []]]; discriminate.
Defined.

(** ** td_ameritrade.py: the token file *)

Lemma path_in_app (p : string) (ps qs : list string) :
  TDAClient_rest.path_in p (ps ++ qs)
  = TDAClient_rest.path_in p ps || TDAClient_rest.path_in p qs.
Proof.
  induction ps as [|q ps IH]; [reflexivity|].
  cbn [app TDAClient_rest.path_in]. rewrite IH, orb_assoc. reflexivity.
Qed.

(** X14. [authentication] opens the browser exactly when no token file is
    found at the path it probes. The login flow then writes the token to
    the configured [tda_token_path]: when that path leads to the probed
    file, however the two are spelled, the next call loads the file without
    a browser, and when it leads to another file the next call finds no
    token again and opens the browser once more. *)
Theorem browser_login_when_token_file_missing
    (realpath : string -> string) (token_path tda_token_path : string)
    (a : TDAClient_rest.AuthWorld) :
  (TDAClient_rest.path_in (realpath token_path) (TDAClient_rest.token_files a)
   = true ->
   TDAClient_rest.authentication realpath token_path tda_token_path a
   = (Ok (TDAClient_rest.ClientFromFile token_path), a))
  /\ (TDAClient_rest.path_in (realpath token_path)
        (TDAClient_rest.token_files a) = false ->
      TDAClient_rest.login_flow_answer a = Ok tt ->
      exists a',
        TDAClient_rest.authentication realpath token_path tda_token_path a
        = (Ok TDAClient_rest.ClientFromLogin, a')
        /\ TDAClient_rest.browsers_started a'
           = S (TDAClient_rest.browsers_started a)
        /\ (realpath token_path = realpath tda_token_path ->
            TDAClient_rest.authentication realpath token_path tda_token_path a'
            = (Ok (TDAClient_rest.ClientFromFile token_path), a'))
        /\ (realpath token_path <> realpath tda_token_path ->
            TDAClient_rest.browsers_started
              (snd (TDAClient_rest.authentication realpath token_path
                      tda_token_path a'))
            = S (S (TDAClient_rest.browsers_started a)))).
Proof.
  unfold TDAClient_rest.authentication, TDAClient_rest.client_from_token_file.
  split.
  - intros Hfound. rewrite Hfound. reflexivity.
  - intros Hmissing Hlogin. rewrite Hmissing.
    unfold TDAClient_rest.client_from_login_flow, TDAClient_rest.start_chrome.
    cbn [TDAClient_rest.login_flow_answer TDAClient_rest.token_files
         TDAClient_rest.browsers_started TDAClient_rest.auth_stdout].
    rewrite Hlogin. eexists. split; [reflexivity|].
    cbn [TDAClient_rest.login_flow_answer TDAClient_rest.token_files
         TDAClient_rest.browsers_started TDAClient_rest.auth_stdout].
    split; [reflexivity|]. rewrite path_in_app, Hmissing.
    cbn [orb TDAClient_rest.path_in]. rewrite orb_false_r. split.
    + intros <-. rewrite String.eqb_refl. reflexivity.
    + intros Hdiff. apply String.eqb_neq in Hdiff. rewrite Hdiff.
      reflexivity.
Qed.

Lemma browser_login_witness :
  (exists a',
      TDAClient_rest.authentication run_from_module_directory
        "/srv/gti/token" "/home/me/tda_token" fresh_install
      = (Ok TDAClient_rest.ClientFromLogin, a')
      /\ TDAClient_rest.token_files a' = ["/home/me/tda_token"]
      /\ TDAClient_rest.browsers_started
           (snd (TDAClient_rest.authentication run_from_module_directory
                   "/srv/gti/token" "/home/me/tda_token" a'))
         = 2%nat)
  /\ (exists a',
         TDAClient_rest.authentication run_from_module_directory
           "/srv/gti/token" "token" fresh_install
         = (Ok TDAClient_rest.ClientFromLogin, a')
         /\ TDAClient_rest.authentication run_from_module_directory
              "/srv/gti/token" "token" a'
            = (Ok (TDAClient_rest.ClientFromFile "/srv/gti/token"), a')).
Proof.
  split.
  - destruct (proj2 (browser_login_when_token_file_missing
                       run_from_module_directory "/srv/gti/token"
                       "/home/me/tda_token" fresh_install) eq_refl eq_refl)
      as (a' & Hrun & _ & _ & Hagain).
    exists a'. split; [exact Hrun|].
    split; [vm_compute in Hrun; inversion Hrun; reflexivity|].
    apply Hagain. discriminate.
  - destruct (proj2 (browser_login_when_token_file_missing
                       run_from_module_directory "/srv/gti/token" "token"
                       fresh_install) eq_refl eq_refl)
      as (a' & Hrun & _ & Hsame & _).
    exists a'. split; [exact Hrun|]. apply Hsame. reflexivity.
Defined.

(** ** yahoo.py: the option chain and the many-ticker download *)

Lemma DataFrame_columns {A} (rows : list A) :
  map fst (DataFrame rows) = seq 0 (List.length rows)
  /\ map snd (DataFrame rows) = rows.
Proof.
  unfold DataFrame. generalize 0%nat.
  induction rows as [|a rows IH]; intros start; [split; reflexivity|].
  cbn [List.length seq combine map fst snd].
  destruct (IH (S start)) as (Hfst & Hsnd).
  rewrite Hfst, Hsnd. split; reflexivity.
Qed.

(** X15. The Yahoo option chain returns the calls for ["call"] and the puts
    for ["put"]; for every other filter value, unspecified or not, it raises
    nothing and returns all calls followed by all puts, each side keeping
    its own row labels from 0. *)
Theorem yahoo_unknown_filter_returns_both_sides
    (vendors : Vendors) (ticker date : string) (call_or_put : option string)
    (calls_ puts : list YfContract) :
  yf_option_chain vendors (upper ticker) date = Ok (calls_, puts) ->
  call_or_put <> Some "call" -> call_or_put <> Some "put" ->
  exists rows,
    YFinanceApi_rest.get_options_data vendors ticker date call_or_put = Ok rows
    /\ map snd rows
       = map YFinanceApi_rest.contract_row calls_
         ++ map YFinanceApi_rest.contract_row puts
    /\ map fst rows
       = seq 0 (List.length calls_) ++ seq 0 (List.length puts).
Proof.
  intros Hsent Hcall Hput.
  unfold YFinanceApi_rest.get_options_data. rewrite Hsent.
  destruct (TDAClient.is_str call_or_put "call") eqn:Hc;
    [apply is_str_true in Hc; contradiction|].
  destruct (TDAClient.is_str call_or_put "put") eqn:Hp;
    [apply is_str_true in Hp; contradiction|].
  eexists. split; [reflexivity|].
  destruct (DataFrame_columns calls_) as (Hcf & Hcs).
  destruct (DataFrame_columns puts) as (Hpf & Hps).
  rewrite !map_map. cbn [fst snd]. rewrite !map_app. split.
  - rewrite <- !(map_map snd YFinanceApi_rest.contract_row), Hcs, Hps.
    reflexivity.
  - change (fun x : nat * YfContract => fst x) with (@fst nat YfContract).
    rewrite Hcf, Hpf. reflexivity.
Qed.

Lemma yahoo_unknown_filter_witness :
  Some "both" <> Some "call" /\ Some "both" <> Some "put"
  /\ exists rows,
       YFinanceApi_rest.get_options_data scripted_vendors "spy" "2023-05-05"
         (Some "both") = Ok rows
       /\ map fst rows = [0; 0; 1]%nat.
Proof.
  split; [discriminate|]. split; [discriminate|].
  destruct (yahoo_unknown_filter_returns_both_sides scripted_vendors "spy"
              "2023-05-05" (Some "both") [yf_call_450] [yf_put_450; yf_put_520]
              eq_refl ltac:(discriminate) ltac:(discriminate))
    as (rows & Hrun & _ & Hlabels).
  exists rows. split; [exact Hrun | exact Hlabels].
Defined.

Lemma remove_char_app (c : ascii) (s t : string) :
  YFinanceApi.remove_char c (s ++ t)
  = (YFinanceApi.remove_char c s ++ YFinanceApi.remove_char c t)%string.
Proof.
  induction s as [|x s IH]; [reflexivity|].
  cbn. destruct (Ascii.eqb x c); [exact IH | cbn; rewrite IH; reflexivity].
Qed.

Lemma strip_app (s t : string) :
  YFinanceApi_rest.strip_list_marks (s ++ t)
  = (YFinanceApi_rest.strip_list_marks s ++ YFinanceApi_rest.strip_list_marks t)%string.
Proof. unfold YFinanceApi_rest.strip_list_marks. rewrite !remove_char_app. reflexivity. Qed.

Lemma strip_plain (s : string) :
  YFinanceApi_rest.plain s = true -> YFinanceApi_rest.strip_list_marks s = s.
Proof.
  induction s as [|x s IH]; intros Hplain; [reflexivity|].
  cbn [YFinanceApi_rest.plain] in Hplain.
  repeat (apply andb_true_iff in Hplain; destruct Hplain as (Hplain & ?)).
  repeat match goal with
         | H : negb _ = true |- _ => apply negb_true_iff in H
         end.
  change (String x s) with (String x EmptyString ++ s)%string.
  rewrite strip_app, IH by assumption.
  unfold YFinanceApi_rest.strip_list_marks.
  repeat (cbn [YFinanceApi.remove_char];
          match goal with
          | H : Ascii.eqb x _ = false |- _ => rewrite H; clear H
          end).
  cbn [YFinanceApi.remove_char]. reflexivity.
Qed.

Lemma string_app_nil_r (s : string) : (s ++ "")%string = s.
Proof. induction s as [|c s IH]; [reflexivity | cbn; rewrite IH; reflexivity]. Qed.

Lemma strip_quoted_items (tickers : list string) :
  Forall (fun t => YFinanceApi_rest.plain t = true) tickers ->
  YFinanceApi_rest.strip_list_marks (YFinanceApi_rest.quoted_items tickers)
  = YFinanceApi_rest.join_spaces tickers.
Proof.
  assert (Hquote : YFinanceApi_rest.strip_list_marks "'" = "") by reflexivity.
  assert (Hsep : YFinanceApi_rest.strip_list_marks "', " = " ") by reflexivity.
  induction tickers as [|t tickers IH]; intros Hplain; [reflexivity|].
  inversion Hplain as [|t' ts Ht Hts]; subst.
  destruct tickers as [|t2 tickers].
  - cbn [YFinanceApi_rest.quoted_items YFinanceApi_rest.join_spaces].
    rewrite !strip_app, (strip_plain t Ht), Hquote.
    cbn [append]. apply string_app_nil_r.
  - change (YFinanceApi_rest.quoted_items (t :: t2 :: tickers))
      with ("'" ++ t ++ "', " ++ YFinanceApi_rest.quoted_items (t2 :: tickers))%string.
    change (YFinanceApi_rest.join_spaces (t :: t2 :: tickers))
      with (t ++ " " ++ YFinanceApi_rest.join_spaces (t2 :: tickers))%string.
    rewrite !strip_app, (strip_plain t Ht), (IH Hts), Hquote, Hsep.
    reflexivity.
Qed.

(** X16. For tickers that Python prints without escapes and that hold no
    bracket, quote or comma, [yf_data_multi] asks the vendor once, for the
    tickers joined by single spaces in the caller's casing, over the given
    horizon. *)
Theorem multi_download_asks_for_space_joined_tickers
    (env : Env) (tickers : list string) (horizon : string) (w : World) :
  py_str_list env tickers = YFinanceApi_rest.list_text tickers ->
  Forall (fun t => YFinanceApi_rest.plain t = true) tickers ->
  calls (snd (YFinanceApi.yf_data_multi env tickers horizon w))
  = calls w ++ [YfDownload (YFinanceApi_rest.join_spaces tickers) horizon].
Proof.
  intros Hstr Hplain.
  assert (Hnames :
    YFinanceApi_rest.strip_list_marks (py_str_list env tickers)
    = YFinanceApi_rest.join_spaces tickers).
  { rewrite Hstr. unfold YFinanceApi_rest.list_text.
    rewrite !strip_app, (strip_quoted_items tickers Hplain).
    change (YFinanceApi_rest.strip_list_marks "[") with "".
    change (YFinanceApi_rest.strip_list_marks "]") with "".
    cbn [append]. apply string_app_nil_r. }
  unfold YFinanceApi.yf_data_multi. run_monad.
  fold (YFinanceApi_rest.strip_list_marks (py_str_list env tickers)). rewrite Hnames.
  destruct (yf_download env _); reflexivity.
Qed.

Lemma multi_download_witness :
  calls (snd (YFinanceApi.yf_data_multi healthy_printing ["spy"; "AAPL"; "qqq"]
                "1y" (world_at friday_10am)))
  = [YfDownload "spy AAPL qqq" "1y"].
Proof.
  apply (multi_download_asks_for_space_joined_tickers healthy_printing
           ["spy"; "AAPL"; "qqq"] "1y" (world_at friday_10am) eq_refl).
  repeat constructor.
Defined.

(** ** The option frame and the flattening, further *)

Lemma filter_twice {A} (f g : A -> bool) (l : list A) :
  filter g (filter f l) = filter (fun x => f x && g x) l.
Proof.
  induction l as [|a l IH]; [reflexivity|].
  cbn [filter]. destruct (f a); cbn [filter andb]; [|exact IH].
  destruct (g a); rewrite IH; reflexivity.
Qed.

Lemma filter_all {A} (f : A -> bool) (l : list A) :
  (forall a, f a = true) -> filter f l = l.
Proof.
  intros Hf. induction l as [|a l IH]; [reflexivity|].
  cbn [filter]. rewrite Hf, IH. reflexivity.
Qed.

Lemma filter_keeps_sorted {A} (f : nat * A -> bool) (l : list (nat * A)) :
  StronglySorted lt (map fst l) -> StronglySorted lt (map fst (filter f l)).
Proof.
  induction l as [|a l IH]; intros Hsorted; [constructor|].
  cbn [map] in Hsorted. inversion Hsorted as [|x xs Hrest Hall]; subst.
  cbn [filter]. destruct (f a); [|apply IH; exact Hrest].
  cbn [map]. constructor; [apply IH; exact Hrest|].
  rewrite Forall_forall in *. intros i Hi. apply Hall.
  apply in_map_iff in Hi. destruct Hi as (r & <- & Hr).
  apply filter_In in Hr. apply in_map. apply Hr.
Qed.

Lemma seq_sorted (len : nat) : forall start, StronglySorted lt (seq start len).
Proof.
  induction len as [|len IH]; intros start; [constructor|].
  cbn [seq]. constructor; [apply IH|].
  rewrite Forall_forall. intros i Hi. apply in_seq in Hi. lia.
Qed.

Lemma filter_options_is_one_filter (options_list : list RawOption)
    (call_or_put in_or_out : option string) :
  options_list <> [] ->
  call_or_put = None \/ call_or_put = Some "call" \/ call_or_put = Some "put" ->
  TDAClient.filter_options options_list call_or_put in_or_out
  = Ok (Frame (map (fun r => (fst r, TDAClient.option_row (snd r)))
                 (filter (wanted call_or_put in_or_out)
                    (DataFrame options_list)))).
Proof.
  intros Hne Hvalid.
  destruct options_list as [|o0 rest]; [contradiction|].
  unfold TDAClient.filter_options, TDAClient.by_in_or_out,
    TDAClient.select_columns, wanted.
  cbn [column].
  destruct Hvalid as [-> | [-> | ->]];
    cbn [TDAClient.by_call_or_put TDAClient.is_str String.eqb Ascii.eqb
         Bool.eqb andb column];
    destruct (TDAClient.is_str in_or_out "in");
    [ | destruct (TDAClient.is_str in_or_out "out") | |
      destruct (TDAClient.is_str in_or_out "out") | |
      destruct (TDAClient.is_str in_or_out "out") ];
    unfold TDAClient.loc_putCall, TDAClient.loc_inTheMoney;
    rewrite ?filter_twice; do 3 f_equal;
    first [ apply filter_ext; intros r; cbn [andb];
            rewrite ?andb_true_r; reflexivity
          | symmetry; apply filter_all; intros r; reflexivity ].
Qed.

(** X17. With a valid type filter and a non-empty flattened chain, the
    frame of [get_options_data] holds exactly the contracts that pass both
    filters, each under the position it had in the flattened chain: the
    labels increase strictly, so the rows stand in the vendor's order, calls
    before puts, and no contract comes twice. *)
Theorem option_rows_keep_the_vendor_order
    (options_list : list RawOption) (call_or_put in_or_out : option string) :
  options_list <> [] ->
  call_or_put = None \/ call_or_put = Some "call" \/ call_or_put = Some "put" ->
  exists rows,
    TDAClient.filter_options options_list call_or_put in_or_out
    = Ok (Frame rows)
    /\ rows = map (fun r => (fst r, TDAClient.option_row (snd r)))
                (filter (wanted call_or_put in_or_out) (DataFrame options_list))
    /\ StronglySorted lt (map fst rows).
Proof.
  intros Hne Hvalid. eexists. split; [|split; [reflexivity|]].
  - apply filter_options_is_one_filter; assumption.
  - rewrite map_map. cbn [fst].
    change (fun x : nat * RawOption => fst x) with (@fst nat RawOption).
    apply filter_keeps_sorted.
    rewrite (proj1 (DataFrame_columns options_list)). apply seq_sorted.
Qed.

Lemma option_rows_order_witness :
  exists rows,
    TDAClient.filter_options [call_450; call_520; put_450; put_520] None
      (Some "out") = Ok (Frame rows)
    /\ map fst rows = [1; 2]%nat.
Proof.
  destruct (option_rows_keep_the_vendor_order
              [call_450; call_520; put_450; put_520] None (Some "out")
              ltac:(discriminate) (or_introl eq_refl))
    as (rows & Hrun & Hrows & _).
  exists rows. split; [exact Hrun|]. rewrite Hrows. reflexivity.
Defined.

(** X18. When the flattened chain is empty, a request with the call, the
    put or no type filter does not return an empty frame: it raises
    [KeyError]. *)
Theorem empty_chain_raises_key_error
    (env : Env) (symbol strike_date : string) (strike_price : option float)
    (call_or_put in_or_out : option string) (w w' : World) :
  TDAClient.fetch_options_list env symbol strike_date strike_price w
  = (Ok [], w') ->
  call_or_put = None \/ call_or_put = Some "call" \/ call_or_put = Some "put" ->
  exists key,
    TDAClient.get_options_data env symbol strike_date strike_price
      call_or_put in_or_out w = (Raise (KeyError key), w').
Proof.
  intros Hfetch Hvalid.
  unfold TDAClient.get_options_data, bind, lift. rewrite Hfetch.
  unfold TDAClient.filter_options, TDAClient.by_in_or_out,
    TDAClient.select_columns.
  destruct Hvalid as [-> | [-> | ->]];
    cbn [TDAClient.by_call_or_put String.eqb Ascii.eqb Bool.eqb column];
    try (eexists; reflexivity).
  destruct (TDAClient.is_str in_or_out "in");
    [eexists; reflexivity|].
  destruct (TDAClient.is_str in_or_out "out"); eexists; reflexivity.
Qed.

Lemma empty_chain_witness :
  exists key,
    TDAClient.get_options_data no_contracts "spy" "2023-05-05" None None None
      (world_at friday_10am) = (Raise (KeyError key), after_chain_request).
Proof.
  apply (empty_chain_raises_key_error no_contracts "spy" "2023-05-05" None
           None None (world_at friday_10am) after_chain_request eq_refl
           (or_introl eq_refl)).
Defined.

Section FlatteningErrors.
Variable env : Env.

Lemma float_known_dec (q : string * RawOption) :
  {py_float env (fst q) <> None} + {~ py_float env (fst q) <> None}.
Proof.
  destruct (py_float env (fst q)); [left; discriminate|].
  right. intros H. apply H. reflexivity.
Qed.

Lemma scan_contracts_unreadable (strike : string) (contracts : list RawOption)
    (options_list : list RawOption) :
  contracts <> [] -> py_float env strike = None ->
  TDAClient.scan_contracts env strike contracts options_list = Raise unreadable.
Proof.
  intros Hne Hnone. destruct contracts as [|o rest]; [contradiction|].
  cbn [TDAClient.scan_contracts]. rewrite Hnone. reflexivity.
Qed.

Lemma scan_contracts_error (strike : string) (contracts : list RawOption) :
  forall options_list e,
    TDAClient.scan_contracts env strike contracts options_list = Raise e ->
    e = unreadable.
Proof.
  induction contracts as [|o rest IH]; intros options_list e Hrun.
  - discriminate.
  - cbn [TDAClient.scan_contracts] in Hrun.
    destruct (py_float env strike) as [k|].
    + apply (IH _ _ Hrun).
    + inversion Hrun. reflexivity.
Qed.

Lemma scan_strikes_error (strikes : StrikeMap) :
  forall options_list e,
    TDAClient.scan_strikes env strikes options_list = Raise e -> e = unreadable.
Proof.
  induction strikes as [|[strike contracts] rest IH]; intros options_list e Hrun.
  - discriminate.
  - cbn [TDAClient.scan_strikes] in Hrun.
    destruct (TDAClient.scan_contracts env strike contracts options_list)
      as [acc|e'] eqn:Hhead.
    + apply (IH _ _ Hrun).
    + inversion Hrun; subst. apply (scan_contracts_error _ _ _ _ Hhead).
Qed.

Lemma scan_strikes_unreadable (strikes : StrikeMap) :
  forall options_list p,
    In p (strike_pairs strikes) -> py_float env (fst p) = None ->
    TDAClient.scan_strikes env strikes options_list = Raise unreadable.
Proof.
  induction strikes as [|[strike contracts] rest IH];
    intros options_list p Hin Hnone; [contradiction|].
  unfold strike_pairs in Hin. cbn [flat_map fst snd] in Hin.
  apply in_app_or in Hin. cbn [TDAClient.scan_strikes].
  destruct Hin as [Hhead | Hrest].
  - apply in_map_iff in Hhead. destruct Hhead as (o & <- & Ho).
    cbn [fst] in Hnone.
    rewrite scan_contracts_unreadable;
      [reflexivity | intros ->; contradiction | exact Hnone].
  - destruct (TDAClient.scan_contracts env strike contracts options_list)
      as [acc|e] eqn:Hhead.
    + apply (IH acc p Hrest Hnone).
    + rewrite (scan_contracts_error _ _ _ _ Hhead). reflexivity.
Qed.

Lemma scan_dates_unreadable (dates : ExpDateMap) :
  forall options_list p,
    In p (contracts_under dates) -> py_float env (fst p) = None ->
    TDAClient.scan_dates env dates options_list = Raise unreadable.
Proof.
  induction dates as [|[date strikes] rest IH];
    intros options_list p Hin Hnone; [contradiction|].
  unfold contracts_under in Hin. cbn [flat_map snd] in Hin.
  apply in_app_or in Hin. cbn [TDAClient.scan_dates].
  destruct Hin as [Hhead | Hrest].
  - rewrite (scan_strikes_unreadable strikes options_list p Hhead Hnone).
    reflexivity.
  - destruct (TDAClient.scan_strikes env strikes options_list)
      as [acc|e] eqn:Hhead.
    + apply (IH acc p Hrest Hnone).
    + rewrite (scan_strikes_error _ _ _ Hhead). reflexivity.
Qed.

(** X19. With both expiration maps present, flattening raises [ValueError]
    exactly when some strike key that holds at least one contract is not the
    text of a number; a key without contracts is never converted. *)
Theorem flatten_rejects_unreadable_strike_keys
    (option_data : OptionChainJson) (call_map put_map : ExpDateMap) :
  callExpDateMap option_data = Some call_map ->
  putExpDateMap option_data = Some put_map ->
  ((exists p,
       In p (contracts_under call_map ++ contracts_under put_map)
       /\ py_float env (fst p) = None)
   <-> TDAClient.flatten_chain env option_data = Raise unreadable).
Proof.
  intros Hcall Hput. unfold TDAClient.flatten_chain. rewrite Hcall, Hput.
  split.
  - intros (p & Hin & Hnone). apply in_app_or in Hin.
    destruct Hin as [Hin | Hin].
    + rewrite (scan_dates_unreadable call_map [] p Hin Hnone). reflexivity.
    + destruct (TDAClient.scan_dates env call_map []) as [acc|e] eqn:Hhead.
      * apply (scan_dates_unreadable put_map acc p Hin Hnone).
      * pose proof Hhead as Herr.
        destruct (Forall_Exists_dec
                    (fun q : string * RawOption => py_float env (fst q) <> None)
                    float_known_dec (contracts_under call_map))
          as [Hall | Hbad].
        -- rewrite scan_dates_spec in Herr
             by (intros q Hq; rewrite Forall_forall in Hall; apply Hall; exact Hq).
           discriminate.
        -- apply Exists_exists in Hbad. destruct Hbad as (q & Hq & Hqnone).
           destruct (py_float env (fst q)) eqn:Hfq;
             [exfalso; apply Hqnone; discriminate|].
           rewrite (scan_dates_unreadable call_map [] q Hq Hfq) in Hhead.
           inversion Hhead. reflexivity.
  - intros Hrun.
    destruct (Forall_Exists_dec
                (fun q : string * RawOption => py_float env (fst q) <> None)
                float_known_dec
                (contracts_under call_map ++ contracts_under put_map))
      as [Hall | Hbad].
    + rewrite Forall_forall in Hall. exfalso.
      rewrite scan_dates_spec in Hrun
        by (intros q Hq; apply Hall; apply in_or_app; left; exact Hq).
      rewrite scan_dates_spec in Hrun
        by (intros q Hq; apply Hall; apply in_or_app; right; exact Hq).
      discriminate.
    + apply Exists_exists in Hbad. destruct Hbad as (q & Hq & Hqnone).
      exists q. split; [exact Hq|].
      destruct (py_float env (fst q)); [exfalso; apply Hqnone; discriminate|].
      reflexivity.
Qed.

(** X20. When every strike key agrees with the strike of each contract
    filed under it, flattening loses nothing: the result is every contract
    of the call map followed by every contract of the put map, in the
    vendor's order. *)
Theorem flatten_keeps_every_contract_when_keys_agree
    (option_data : OptionChainJson) (call_map put_map : ExpDateMap) :
  callExpDateMap option_data = Some call_map ->
  putExpDateMap option_data = Some put_map ->
  (forall p, In p (contracts_under call_map ++ contracts_under put_map) ->
             strike_matches env p = true) ->
  TDAClient.flatten_chain env option_data
  = Ok (map snd (contracts_under call_map ++ contracts_under put_map)).
Proof.
  intros Hcall Hput Hagree.
  assert (Hfloat : forall p,
             In p (contracts_under call_map ++ contracts_under put_map) ->
             py_float env (fst p) <> None).
  { intros p Hp Hnone. specialize (Hagree p Hp).
    unfold strike_matches in Hagree. rewrite Hnone in Hagree. discriminate. }
  unfold TDAClient.flatten_chain. rewrite Hcall, Hput.
  rewrite scan_dates_spec
    by (intros p Hp; apply Hfloat; apply in_or_app; left; exact Hp).
  rewrite scan_dates_spec
    by (intros p Hp; apply Hfloat; apply in_or_app; right; exact Hp).
  cbn [app]. rewrite <- kept_app. unfold kept_contracts.
  rewrite forallb_filter_id by (apply forallb_forall; exact Hagree).
  reflexivity.
Qed.

End FlatteningErrors.

Lemma flatten_unreadable_witness :
  TDAClient.flatten_chain healthy
    (mkChain (Some [("2023-05-05:3", [("n/a", [call_450]); ("520.0", [call_520])])])
             (Some []))
  = Raise unreadable
  /\ TDAClient.flatten_chain healthy
       (mkChain (Some [("2023-05-05:3", [("n/a", []); ("520.0", [call_520])])])
                (Some []))
     = Ok [call_520].
Proof.
  split; [|vm_compute; reflexivity].
  apply (proj1 (flatten_rejects_unreadable_strike_keys healthy
                  (mkChain (Some [("2023-05-05:3",
                                   [("n/a", [call_450]); ("520.0", [call_520])])])
                           (Some []))
                  [("2023-05-05:3", [("n/a", [call_450]); ("520.0", [call_520])])]
                  [] eq_refl eq_refl)).
  exists ("n/a", call_450). split; [left; reflexivity | reflexivity].
Defined.

Lemma flatten_keeps_all_witness :
  TDAClient.flatten_chain healthy
    (mkChain (Some [("2023-05-05:3", [("450.0", [call_450]); ("520.0", [call_520])])])
             (Some [("2023-05-05:3", [("450.0", [put_450])])]))
  = Ok [call_450; call_520; put_450].
Proof.
  apply (flatten_keeps_every_contract_when_keys_agree healthy
           (mkChain (Some [("2023-05-05:3",
                            [("450.0", [call_450]); ("520.0", [call_520])])])
                    (Some [("2023-05-05:3", [("450.0", [put_450])])]))
           [("2023-05-05:3", [("450.0", [call_450]); ("520.0", [call_520])])]
           [("2023-05-05:3", [("450.0", [put_450])])] eq_refl eq_refl).
  intros p Hp. cbn in Hp.
  repeat (destruct Hp as [<- | Hp]; [vm_compute; reflexivity|]).
  contradiction.
Defined.

Lemma before_colon_is_colon_free (s : string) :
  colon_free (before_colon s) = true.
Proof.
  induction s as [|c s IH]; [reflexivity|].
  cbn [before_colon]. destruct (Ascii.eqb c ":") eqn:Hc; [reflexivity|].
  cbn [colon_free]. rewrite Hc, IH. reflexivity.
Qed.

(** X21. Whatever keys the vendor uses, no date that [get_option_dates]
    returns holds a colon, and there is one date for every key of the call
    map and of the put map. *)
Theorem option_dates_hold_no_colon
    (env : Env) (ticker : string) (w : World) (dates : list string) :
  fst (TDAClient.get_option_dates env ticker w) = Ok dates ->
  Forall (fun d => colon_free d = true) dates
  /\ exists response option_data call_map put_map,
       tda_get_option_chain env
         (TdaGetOptionChain (upper ticker) None (Some ContractType_ALL) None
            None) = Ok response
       /\ json response = Ok option_data
       /\ callExpDateMap option_data = Some call_map
       /\ putExpDateMap option_data = Some put_map
       /\ List.length dates
          = (List.length call_map + List.length put_map)%nat.
Proof.
  unfold TDAClient.get_option_dates. run_monad.
  destruct (tda_get_option_chain env _) as [response|e] eqn:Hsent;
    [|discriminate].
  destruct (raise_for_status response); [|discriminate].
  destruct (json response) as [option_data|e] eqn:Hjson; [|discriminate].
  destruct (callExpDateMap option_data) as [call_map|] eqn:Hcall;
    [|discriminate].
  destruct (putExpDateMap option_data) as [put_map|] eqn:Hput;
    [|discriminate].
  cbn [of_option app]. intros Hrun. inversion Hrun; subst. split.
  - apply Forall_app. split; apply Forall_forall; intros d Hd;
      apply in_map_iff in Hd; destruct Hd as (kv & <- & _);
      apply before_colon_is_colon_free.
  - exists response, option_data, call_map, put_map.
    repeat split; try assumption.
    rewrite length_app, !length_map. reflexivity.
Qed.

Lemma option_dates_no_colon_witness :
  exists dates,
    fst (TDAClient.get_option_dates healthy "spy" (world_at friday_10am))
    = Ok dates
    /\ Forall (fun d => colon_free d = true) dates
    /\ List.length dates = 2%nat.
Proof.
  destruct (fst (TDAClient.get_option_dates healthy "spy"
                   (world_at friday_10am))) as [dates|e] eqn:Hrun;
    [|vm_compute in Hrun; discriminate].
  exists dates. split; [reflexivity|].
  destruct (option_dates_hold_no_colon healthy "spy" (world_at friday_10am)
              dates Hrun) as (Hfree & _).
  split; [exact Hfree|].
  vm_compute in Hrun. inversion Hrun. reflexivity.
Defined.

(** X22. On a weekend a minute-bar request from market open, made with a
    valid frequency window, sends the vendor exactly one request, and that
    request asks for a window whose start lies after its end. *)
Theorem weekend_request_asks_for_an_inverted_window
    (env : Env) (ticker frequency_window : string) (num_bars : option Z)
    (lookback_days : Z) (keep : bool) (now : datetime) (w : World)
    (frequency : Frequency) :
  valid_datetime now ->
  clock w (ticks w) = now -> clock w (S (ticks w)) = now ->
  5 <= weekday now ->
  TDAClient.frequency_of frequency_window = Ok frequency ->
  exists start_date,
    calls (snd (TDAClient.get_minute_bars env ticker frequency_window num_bars
                  lookback_days keep true w))
    = calls w ++
      [TdaGetPriceHistory (upper ticker) PeriodType_DAY FrequencyType_MINUTE
         (Some frequency) start_date now (Some keep)]
    /\ dt_micros now < dt_micros start_date.
Proof.
  intros Hvalid Hend Hnow Hwe Hfreq.
  pose proof (compute_window_from_open lookback_days w) as Hwindow.
  cbn zeta in Hwindow. rewrite Hend, Hnow in Hwindow.
  specialize (Hwindow Hvalid).
  replace (5 <=? weekday now) with true in Hwindow
    by (symmetry; apply Z.leb_le; exact Hwe).
  exists (replace_time
            (mkDT (toordinal now + (7 - weekday now)) (hour now) (minute now)
                  (second now) (microsecond now) (utcoffset now)) 6 30 0 0).
  split.
  2:{ pose proof (weekday_range now) as Hr.
      destruct Hvalid as (_ & Hh & Hm & Hs & Hus).
      unfold dt_micros. dt_fields.
      destruct now as [o h m sec us tz].
      cbn [toordinal hour minute second microsecond utcoffset] in *.
      lia. }
  pose proof (compute_window_keeps_calls lookback_days true w) as Hcalls.
  unfold TDAClient.get_minute_bars. run_monad.
  destruct (TDAClient.compute_window lookback_days true w)
    as [[window|e] w1]; cbn [fst snd] in Hwindow, Hcalls; [|discriminate].
  inversion Hwindow; subst window. rewrite Hfreq.
  destruct w1 as [clk n cs out]. cbn [calls] in Hcalls. subst cs.
  destruct (tda_get_price_history env _) as [response|e]; [|reflexivity].
  destruct (status_code response =? 200); [|reflexivity].
  destruct (json response) as [[[history_data|]]|e]; try reflexivity.
  cbn [candles of_option].
  destruct (column history_data "datetime"); reflexivity.
Qed.

Lemma weekend_request_witness :
  exists start_date,
    calls (snd (TDAClient.get_minute_bars healthy "spy" "1m" None 5 true true
                  (world_at saturday_10am)))
    = [TdaGetPriceHistory "SPY" PeriodType_DAY FrequencyType_MINUTE
         (Some EVERY_MINUTE) start_date saturday_10am (Some true)]
    /\ dt_micros saturday_10am < dt_micros start_date.
Proof.
  assert (Hvalid : valid_datetime saturday_10am)
    by (unfold valid_datetime; vm_compute; intuition discriminate).
  assert (Hweekend : 5 <= weekday saturday_10am) by (vm_compute; discriminate).
  exact (weekend_request_asks_for_an_inverted_window healthy "spy" "1m" None 5
           true saturday_10am (world_at saturday_10am) EVERY_MINUTE
           Hvalid eq_refl eq_refl Hweekend eq_refl).
Defined.
